(** * Document ingestion notebook (hls-llm-doc-qa): a model of
      [02-Data-prep-with-LangChain.py]

    The notebook is glue code: it clears two directories, loads PDFs,
    splits them with Spark NLP's [DocumentCharacterTextSplitter], and hands
    the result to a Chroma vector store.  The third-party libraries are
    kept abstract (type classes [SparkNLP] and [Platform]); everything the
    notebook itself writes is translated statement by statement. *)

From Stdlib Require Import ZArith Ascii String.
From stdpp Require Import base option strings list gmap.

Local Open Scope string_scope.

(** ** Exceptions and results *)

(** The exception classes a cell of the notebook can end with.
    [ExternalError] stands for anything raised inside a third-party
    library (Spark NLP, LangChain, Chroma, dbutils).  [ConfigurationError]
    is the class the specification names; no statement of the notebook
    raises it. *)
Inductive exn :=
| NameError (name : string)
| TypeError (what : string)
| ImportError (module : string)
| FileExistsError (path : list string)
| NotADirectoryError (path : list string)
| IndexError
| ExternalError (origin : string)
| ConfigurationError.

Inductive result (A : Type) :=
| Ok (a : A)
| Raise (e : exn).
Arguments Ok {A} a.
Arguments Raise {A} e.

Definition rbind {A B} (m : result A) (k : A → result B) : result B :=
  match m with
  | Ok a => k a
  | Raise e => Raise e
  end.

Declare Scope result_scope.
Delimit Scope result_scope with result.
Notation "'let!' x ':=' m 'in' k" := (rbind m (λ x, k))
  (at level 10, x pattern, m at level 100, k at level 200) : result_scope.

(** The outcome of a call into a third-party library: it returns, or the
    library raises one of its own exceptions, told apart by [origin]. *)
Inductive ext (A : Type) :=
| Done (a : A)
| Failed (origin : string).
Arguments Done {A} a.
Arguments Failed {A} origin.

Definition from_ext {A} (x : ext A) : result A :=
  match x with
  | Done a => Ok a
  | Failed origin => Raise (ExternalError origin)
  end.
Coercion from_ext : ext >-> result.

(** ** Documents *)

(** Python objects are handled by reference.  A metadata dictionary lives
    in the object store at some location; a [Document] holds the location,
    not the dictionary. *)
Definition loc := positive.
Abbreviation pydict := (gmap string string).
Abbreviation heap := (gmap loc pydict).

Record Document := mkDocument {
  page_content : string;
  metadata : loc
}.

Global Instance Document_eq_dec : EqDecision Document.
Proof. solve_decision. Defined.

(** [d[k] = v] on the dictionary at [r]. *)
Definition dict_setitem (r : loc) (k v : string) (h : heap) : heap :=
  match h !! r with
  | Some d => <[r := <[k := v]> d]> h
  | None => h
  end.

(** [d.get(k)] on the dictionary at [r]. *)
Definition dict_get (r : loc) (k : string) (h : heap) : option string :=
  h !! r ≫= λ d, d !! k.

(** ** The Spark NLP interface used by the splitter *)

(** The calls the notebook makes on [johnsnowlabs.nlp].  Each setter
    returns the annotator or raises inside the library; what the
    annotator then does with a text is the library's business. *)
Class SparkNLP := {
  Assembler : Type;
  TextSplitter : Type;
  Pipe : Type;
  nlp_start : ext unit;
  DocumentAssembler : ext Assembler;
  DocumentCharacterTextSplitter : TextSplitter;
  setInputCols : list string → TextSplitter → ext TextSplitter;
  setOutputCol : string → TextSplitter → ext TextSplitter;
  setChunkSize : Z → TextSplitter → ext TextSplitter;
  setChunkOverlap : Z → TextSplitter → ext TextSplitter;
  setExplodeSplits : bool → TextSplitter → ext TextSplitter;
  setPatternsAreRegex : bool → TextSplitter → ext TextSplitter;
  setSplitPatterns : list string → TextSplitter → ext TextSplitter;
  setTrimWhitespace : bool → TextSplitter → ext TextSplitter;
  LightPipeline : Assembler → TextSplitter → ext Pipe;
  (** [pipe.annotate(text)['splits']] *)
  annotate : Pipe → string → ext (list string)
}.

(** ** Files *)

(** A file tree as a finite map from paths (lists of components below the
    root) to nodes.  The root is the empty path and is always a directory.
    Relative paths, [..] and shell quoting are not modelled: a path string
    is read as its [/]-separated components. *)
Inductive node :=
| File (content : string)
| Dir.

Global Instance node_eq_dec : EqDecision node.
Proof. solve_decision. Defined.

Abbreviation path := (list string).
Abbreviation filesystem := (gmap path node).

Fixpoint components (cur s : string) : list string :=
  match s with
  | EmptyString => [cur]
  | String c s' =>
      if Ascii.eqb c "/" then cur :: components EmptyString s'
      else components (cur +:+ String c EmptyString) s'
  end.

Definition parse_path (s : string) : path :=
  filter (λ c, c ≠ EmptyString) (components EmptyString s).

Definition fs_node (fs : filesystem) (p : path) : option node :=
  match p with
  | [] => Some Dir
  | _ => fs !! p
  end.

Definition is_file (n : option node) : bool :=
  match n with Some (File _) => true | _ => false end.

(** Everything at or below [p] goes. *)
Definition remove_tree (p : path) (fs : filesystem) : filesystem :=
  filter (λ e, ¬ p `prefix_of` e.1) fs.

(** The non-empty prefixes of [p], shortest first; the last one is [p]. *)
Definition prefixes (p : path) : list path :=
  (λ n, take n p) <$> seq 1 (length p).

(** The proper non-empty prefixes of [p]. *)
Definition ancestors (p : path) : list path :=
  (λ n, take n p) <$> seq 1 (length p - 1).

Definition make_dirs (p : path) (fs : filesystem) : filesystem :=
  foldr (λ q m, <[q := Dir]> m) fs (prefixes p).

(** The first ancestor of [p] that is a regular file, if any. *)
Definition blocking_file (p : path) (fs : filesystem) : option path :=
  snd <$> list_find (λ q, is_file (fs !! q) = true) (ancestors p).

(** [os.path.exists(p)] *)
Definition os_path_exists (p : path) (fs : filesystem) : bool :=
  bool_decide (is_Some (fs_node fs p)).

(** [shutil.rmtree(p, ignore_errors=True)]: removes the tree when [p] is a
    directory; on anything else the error is swallowed and nothing
    changes. *)
Definition shutil_rmtree (p : path) (fs : filesystem) : filesystem :=
  match fs_node fs p with
  | Some Dir => remove_tree p fs
  | _ => fs
  end.

(** [os.makedirs(p)], without [exist_ok]. *)
Definition os_makedirs (p : path) (fs : filesystem) : result filesystem :=
  match blocking_file p fs with
  | Some q => Raise (NotADirectoryError q)
  | None =>
      match fs_node fs p with
      | Some _ => Raise (FileExistsError p)
      | None => Ok (make_dirs p fs)
      end
  end.

(** Shell [rm -r p]: refuses the root, fails on a missing operand, and
    otherwise removes the file or the whole tree.  The exit status is
    dropped by [|| true], so only the effect is kept. *)
Definition sh_rm_r (p : path) (fs : filesystem) : filesystem :=
  match p with
  | [] => fs
  | _ => remove_tree p fs
  end.

(** Shell [mkdir -p p]: creates [p] and its missing parents, or fails
    without effect when [p] or one of its parents is a regular file. *)
Definition sh_mkdir_p (p : path) (fs : filesystem) : filesystem :=
  match blocking_file p fs with
  | Some _ => fs
  | None => if is_file (fs_node fs p) then fs else make_dirs p fs
  end.

(** [s.lstrip(chars)]: drops leading characters that occur in [chars]. *)
Fixpoint lstrip (chars : list ascii) (s : string) : string :=
  match s with
  | EmptyString => EmptyString
  | String c s' => if bool_decide (c ∈ chars) then lstrip chars s' else s
  end.

(** The number of characters of a path string that are not [/]. *)
Fixpoint non_slash (s : string) : nat :=
  match s with
  | EmptyString => 0
  | String c s' => (if Ascii.eqb c "/" then 0 else 1) + non_slash s'
  end.



(** ** The platform around the notebook *)

(** What the notebook consumes from Databricks, LangChain, the John Snow
    Labs embedder and Chroma.  Functions that read or write files or
    allocate Python objects take and return the part of the state they
    touch. *)
Class Platform := {
  Embedder : Type;
  VectorStore : Type;
  (** can [import m] find the module *)
  installed : string → bool;
  (** [%pip install ...] *)
  pip_install : ext unit;
  (** [nltk.download(name)] *)
  nltk_download : string → filesystem → ext filesystem;
  (** [dbutils.fs.cp(src, dst, recurse)] *)
  dbutils_fs_cp : string → string → bool → filesystem → ext filesystem;
  (** [PyPDFDirectoryLoader(path).load()] *)
  PyPDFDirectoryLoader_load :
    string → filesystem → heap → ext (list Document * heap);
  (** [embedding_retrieval.JohnSnowLabsLangChainEmbedder(model)] *)
  JohnSnowLabsLangChainEmbedder : string → ext Embedder;
  (** [Chroma.from_documents(collection_name, documents, embedding,
      persist_directory)] *)
  Chroma_from_documents :
    string → list Document → Embedder → string → filesystem →
    ext VectorStore;
  (** [db.persist()] *)
  Chroma_persist : VectorStore → filesystem → ext filesystem;
  (** [Chroma(collection_name, embedding_function, persist_directory)] *)
  Chroma_open : string → Embedder → string → filesystem → ext VectorStore;
  (** [db.similarity_search(query)] *)
  similarity_search :
    VectorStore → string → heap → ext (list Document * heap)
}.

(** ** The chunker *)

(** A [JslCharSplitter] object holds the pipeline its constructor built,
    [self.pipe]; what a pipeline is, is the library's business. *)
Record JslCharSplitter (Pipe : Type) := mkJslCharSplitter { pipe : Pipe }.
Arguments mkJslCharSplitter {Pipe} pipe.
Arguments pipe {Pipe} _.

Section Chunker.
Context `{SparkNLP} `{Platform}.
Local Open Scope result_scope.

(** [split_hay_doc(pipe, doc)]: every call first runs the function's own
    [from langchain.schema.document import Document], which raises when
    the package cannot be found; then one [Document] per split, each
    built with [metadata = doc.metadata], the parent's dictionary
    object. *)
Definition split_hay_doc (pipe : Pipe) (doc : Document) : result (list Document) :=
  if installed "langchain" then
    let! splits := annotate pipe (page_content doc) in
    Ok (map (λ split, mkDocument split (metadata doc)) splits)
  else Raise (ImportError "langchain").

(** [split_hay_docs(pipe, docs)]: the nested comprehension, documents
    in order, splits of each document in order. *)
Fixpoint split_hay_docs (pipe : Pipe) (docs : list Document) : result (list Document) :=
  match docs with
  | [] => Ok []
  | doc :: docs' =>
      let! here := split_hay_doc pipe doc in
      let! rest := split_hay_docs pipe docs' in
      Ok (here ++ rest)%list
  end.


(** [JslCharSplitter.__init__].  The argument [keep_seperators] is
    accepted and not used: the call [.setKeepSeperators] is commented
    out in the source. *)
Definition JslCharSplitter_init
    (chunk_overlap chunk_size : Z)
    (explode_splits keep_seperators patterns_are_regex : bool)
    (split_patterns : list string) (trim_whitespace : bool)
    : result (JslCharSplitter Pipe) :=
  let! _ := nlp_start in
  let! documentAssembler := DocumentAssembler in
  let! t := setInputCols ["document"] DocumentCharacterTextSplitter in
  let! t := setOutputCol "splits" t in
  let! t := setChunkSize chunk_size t in
  let! t := setChunkOverlap chunk_overlap t in
  let! t := setExplodeSplits explode_splits t in
  let! t := setPatternsAreRegex patterns_are_regex t in
  let! t := setSplitPatterns split_patterns t in
  let! textSplitter := setTrimWhitespace trim_whitespace t in
  let! p := LightPipeline documentAssembler textSplitter in
  Ok (mkJslCharSplitter p).

(** The defaults of the constructor's signature. *)
Definition default_chunk_overlap : Z := 2.
Definition default_chunk_size : Z := 20.
Definition default_explode_splits : bool := true.
Definition default_keep_seperators : bool := true.
Definition default_patterns_are_regex : bool := false.
Definition default_split_patterns : list string :=
  [String "010"%char (String "010"%char EmptyString);
   String "010"%char EmptyString; " "; EmptyString].
Definition default_trim_whitespace : bool := true.

Definition split_documents (self : JslCharSplitter Pipe) (docs : list Document)
    : result (list Document) :=
  split_hay_docs (pipe self) docs.
End Chunker.

(** ** Values and state *)

(** The values a global name of the notebook can hold.  Pipelines,
    embedders and vector stores are objects of the libraries. *)
Inductive value_of (Pipe Embedder VectorStore : Type) :=
| VStr (s : string)
| VModule (name : string)
| VDef (name : string)
| VDocs (docs : list Document)
| VLoader (dir : string)
| VSplitter (s : JslCharSplitter Pipe)
| VEmbedder (e : Embedder)
| VChroma (db : VectorStore).
Arguments VStr {Pipe Embedder VectorStore} s.
Arguments VModule {Pipe Embedder VectorStore} name.
Arguments VDef {Pipe Embedder VectorStore} name.
Arguments VDocs {Pipe Embedder VectorStore} docs.
Arguments VLoader {Pipe Embedder VectorStore} dir.
Arguments VSplitter {Pipe Embedder VectorStore} s.
Arguments VEmbedder {Pipe Embedder VectorStore} e.
Arguments VChroma {Pipe Embedder VectorStore} db.

(** The interpreter session: global names, widget values, the file tree
    and the object store. *)
Record notebook_of (Pipe Embedder VectorStore : Type) := mkNotebook {
  globals : gmap string (value_of Pipe Embedder VectorStore);
  widgets : gmap string string;
  files : filesystem;
  objects : heap
}.
Arguments mkNotebook {Pipe Embedder VectorStore} globals widgets files objects.
Arguments globals {Pipe Embedder VectorStore} _.
Arguments widgets {Pipe Embedder VectorStore} _.
Arguments files {Pipe Embedder VectorStore} _.
Arguments objects {Pipe Embedder VectorStore} _.

(** With the libraries at hand. *)
Abbreviation value := (value_of Pipe Embedder VectorStore).
Abbreviation notebook := (notebook_of Pipe Embedder VectorStore).

Section Notebook.
Context `{SparkNLP} `{Platform}.

Definition with_globals (g : gmap string value) (st : notebook) : notebook :=
  mkNotebook g (widgets st) (files st) (objects st).
Definition with_widgets (w : gmap string string) (st : notebook) : notebook :=
  mkNotebook (globals st) w (files st) (objects st).
Definition with_files (fs : filesystem) (st : notebook) : notebook :=
  mkNotebook (globals st) (widgets st) fs (objects st).
Definition with_objects (h : heap) (st : notebook) : notebook :=
  mkNotebook (globals st) (widgets st) (files st) h.

(** *** Statements: state and exceptions *)

(** A statement runs on the session and either completes or raises; the
    effects made before the exception stay. *)
Definition M (A : Type) : Type := notebook → result A * notebook.

Definition ret {A} (a : A) : M A := λ st, (Ok a, st).
Definition raise {A} (e : exn) : M A := λ st, (Raise e, st).
Definition bind {A B} (m : M A) (k : A → M B) : M B := λ st,
  match m st with
  | (Ok a, st') => k a st'
  | (Raise e, st') => (Raise e, st')
  end.
Definition lift {A} (r : result A) : M A := λ st, (r, st).

Declare Scope nb_scope.
Delimit Scope nb_scope with nb.
Notation "'let*' x ':=' m 'in' k" := (bind m (λ x, k))
  (at level 10, x pattern, m at level 100, k at level 200) : nb_scope.
Notation "m1 ;; m2" := (bind m1 (λ _, m2))
  (at level 100, m2 at level 200, right associativity) : nb_scope.
Local Open Scope nb_scope.

(** Reading a name: an unbound global raises [NameError]. *)
Definition get_global (name : string) : M value := λ st,
  match globals st !! name with
  | Some v => (Ok v, st)
  | None => (Raise (NameError name), st)
  end.

(** [name = v] *)
Definition set_global (name : string) (v : value) : M unit := λ st,
  (Ok tt, with_globals (<[name := v]> (globals st)) st).

Definition get_str (name : string) : M string :=
  let* v := get_global name in
  match v with VStr s => ret s | _ => raise (TypeError name) end.

Definition get_docs (name : string) : M (list Document) :=
  let* v := get_global name in
  match v with VDocs ds => ret ds | _ => raise (TypeError name) end.

(** A name that must hold the function or class of that name. *)
Definition get_def (name : string) : M unit :=
  let* v := get_global name in
  match v with
  | VDef n => if bool_decide (n = name) then ret tt else raise (TypeError name)
  | _ => raise (TypeError name)
  end.

Definition get_files : M filesystem := λ st, (Ok (files st), st).
Definition set_files (fs : filesystem) : M unit := λ st, (Ok tt, with_files fs st).

(** A library call that reads and writes files. *)
Definition on_files (f : filesystem → result filesystem) : M unit :=
  let* fs := get_files in
  let* fs' := lift (f fs) in
  set_files fs'.

(** A library call that reads files and returns documents, allocating
    their metadata dictionaries. *)
Definition load_with
    (f : filesystem → heap → ext (list Document * heap))
    : M (list Document) := λ st,
  match f (files st) (objects st) with
  | Done (ds, h) => (Ok ds, with_objects h st)
  | Failed origin => (Raise (ExternalError origin), st)
  end.

(** [import m] / [from m import name]: binds [name] to the imported
    object when the top-level package can be found. *)
Definition import (package name : string) : M unit :=
  if installed package then set_global name (VModule name)
  else raise (ImportError package).

(** Modules of the standard library are always there. *)
Definition import_std (name : string) : M unit :=
  set_global name (VModule name).

(** [str(v)] as used by f-strings and shell interpolation.  For objects
    other than strings Python prints an implementation-specific text;
    the model prints the kind of object. *)
Definition py_str (v : value) : string :=
  match v with
  | VStr s => s
  | VModule name => "<module " +:+ name +:+ ">"
  | VDef name => "<function " +:+ name +:+ ">"
  | VDocs _ => "[...]"
  | VLoader _ => "<PyPDFDirectoryLoader>"
  | VSplitter _ => "<JslCharSplitter>"
  | VEmbedder _ => "<JohnSnowLabsLangChainEmbedder>"
  | VChroma _ => "<Chroma>"
  end.

(** The names Databricks puts into a fresh Python process.  The source
    does not list them; these are the ones the notebook uses ([dbutils],
    [display]) and the Spark entry points every Databricks Python
    notebook starts with. *)
Definition databricks_builtins : gmap string value :=
  list_to_map
    [("dbutils", VModule "dbutils"); ("display", VDef "display");
     ("displayHTML", VDef "displayHTML"); ("spark", VModule "spark");
     ("sc", VModule "sc"); ("sqlContext", VModule "sqlContext")].

(** [dbutils.library.restartPython()]: the process starts over, every
    global of the session is gone. *)
Definition restartPython : M unit := λ st,
  (Ok tt, with_globals databricks_builtins st).

(** [dbutils.widgets.text(name, default)]: creates the widget; an
    existing widget keeps the value the user gave it. *)
Definition widgets_text (name default : string) : M unit :=
  get_global "dbutils" ;;
  λ st, match widgets st !! name with
        | Some _ => (Ok tt, st)
        | None => (Ok tt, with_widgets (<[name := default]> (widgets st)) st)
        end.

(** [dbutils.widgets.get(name)] *)
Definition widgets_get (name : string) : M string :=
  get_global "dbutils" ;;
  λ st, match widgets st !! name with
        | Some v => (Ok v, st)
        | None => (Raise (ExternalError "InputWidgetNotDefined"), st)
        end.

(** *** The cells of the notebook, in source order *)

(** [%run ./util/install-prep-libraries] *)
Definition cell_install : M unit :=
  lift pip_install ;;
  get_global "dbutils" ;;
  restartPython ;;
  import "nltk" "nltk" ;;
  on_files (nltk_download "punkt").

(** Lines 36-46: the four text widgets with their defaults. *)
Definition cell_widgets : M unit :=
  widgets_text "PDF_Path" "/dbfs/tmp/langchain_hls/pdfs" ;;
  widgets_text "Embeddings_Model" "en.embed_sentence.bert_base_uncased" ;;
  widgets_text "Vectorstore_Persist_Path" "/dbfs/tmp/langchain_hls/db" ;;
  widgets_text "Source_Documents" "s3a://db-gtm-industry-solutions/data/hls/llm_qa/".

(** Lines 51-54. *)
Definition cell_get_widgets : M unit :=
  (let* v := widgets_get "PDF_Path" in set_global "pdf_path" (VStr v)) ;;
  (let* v := widgets_get "Source_Documents" in set_global "source_pdfs" (VStr v)) ;;
  (let* v := widgets_get "Vectorstore_Persist_Path" in
   set_global "db_persist_path" (VStr v)) ;;
  (let* v := widgets_get "Embeddings_Model" in
   set_global "embeddings_model" (VStr v)).

(** Line 58. *)
Definition cell_import_os : M unit := import_std "os".

(** Lines 75-81: the two imports, then the staging directory is deleted
    when it exists and created again. *)
Definition clear_pdf_dir : M unit :=
  import_std "os" ;;
  import_std "shutil" ;;
  get_global "os" ;;
  let* pdf_path := get_str "pdf_path" in
  let* fs := get_files in
  (if os_path_exists (parse_path pdf_path) fs then
     get_global "shutil" ;;
     let* pdf_path := get_str "pdf_path" in
     let* fs := get_files in
     set_files (shutil_rmtree (parse_path pdf_path) fs)
   else ret tt) ;;
  get_global "os" ;;
  let* pdf_path := get_str "pdf_path" in
  on_files (os_makedirs (parse_path pdf_path)).

(** Lines 84-85: the source documents are copied into the staging
    directory. *)
Definition copy_pdfs : M unit :=
  (let* pdf_path := get_str "pdf_path" in
   set_global "modified_pdf_path"
     (VStr ("dbfs:/" +:+ lstrip (list_ascii_of_string "/dbfs") pdf_path))) ;;
  get_global "dbutils" ;;
  let* source_pdfs := get_str "source_pdfs" in
  let* modified_pdf_path := get_str "modified_pdf_path" in
  on_files (dbutils_fs_cp source_pdfs modified_pdf_path true).

(** Lines 75-85. *)
Definition cell_stage_pdfs : M unit := clear_pdf_dir ;; copy_pdfs.

(** The text IPython puts in place of [{name}] in a shell line: the
    value's [str()], or the braces left as typed when the name is
    unbound. *)
Definition shell_expand (name : string) (st : notebook) : string :=
  match globals st !! name with
  | Some v => py_str v
  | None => "{" +:+ name +:+ "}"
  end.

(** Line 114: [!(rm -r {db_persist_path} || true) && mkdir -p
    {db_persist_path}].  A shell line raises nothing in Python.  The
    value is pasted unquoted; the model reads it as one path, which is
    what the shell does for a [plain_path].  A value with blanks or shell
    metacharacters names other words and is outside this model. *)
Definition cell_reset_db_dir : M unit := λ st,
  let p := parse_path (shell_expand "db_persist_path" st) in
  (Ok tt, with_files (sh_mkdir_p p (sh_rm_r p (files st))) st).

(** Lines 124-131. *)
Definition cell_load_pdfs : M unit :=
  import "langchain" "Document" ;;
  import "langchain" "PyPDFDirectoryLoader" ;;
  (let* v := get_global "pdf_path" in
   set_global "loader_path" (VStr (py_str v +:+ "/"))) ;;
  (get_global "PyPDFDirectoryLoader" ;;
   let* loader_path := get_str "loader_path" in
   set_global "pdf_loader" (VLoader loader_path)) ;;
  (let* v := get_global "pdf_loader" in
   match v with
   | VLoader dir =>
       let* docs := load_with (PyPDFDirectoryLoader_load dir) in
       set_global "docs" (VDocs docs)
   | _ => raise (TypeError "pdf_loader")
   end) ;;
  get_docs "docs" ;;
  ret tt.

(** Lines 145-189: the import and the three definitions. *)
Definition cell_define_splitter : M unit :=
  import "johnsnowlabs" "nlp" ;;
  set_global "split_hay_doc" (VDef "split_hay_doc") ;;
  set_global "split_hay_docs" (VDef "split_hay_docs") ;;
  set_global "JslCharSplitter" (VDef "JslCharSplitter").

(** Line 194: [jsl_splitter = JslCharSplitter(chunk_size=1000,
    chunk_overlap=0)]; the constructor reads the global [nlp]. *)
Definition make_splitter : M unit :=
  get_def "JslCharSplitter" ;;
  get_global "nlp" ;;
  let* s := lift (JslCharSplitter_init 0 1000 default_explode_splits
                    default_keep_seperators default_patterns_are_regex
                    default_split_patterns default_trim_whitespace) in
  set_global "jsl_splitter" (VSplitter s).

(** Line 195: [texts = jsl_splitter.split_documents(docs)]; the method
    reads the global [split_hay_docs], which reads [split_hay_doc] once
    per document. *)
Definition split_docs : M unit :=
  let* v := get_global "jsl_splitter" in
  match v with
  | VSplitter s =>
      let* docs := get_docs "docs" in
      get_def "split_hay_docs" ;;
      (match docs with [] => ret tt | _ => get_def "split_hay_doc" end) ;;
      let* texts := lift (split_documents s docs) in
      set_global "texts" (VDocs texts)
  | _ => raise (TypeError "jsl_splitter")
  end.

(** Lines 194-195. *)
Definition cell_split : M unit := make_splitter ;; split_docs.

(** Line 199: [display(documents)]. *)
Definition cell_display_documents : M unit :=
  get_global "display" ;;
  get_global "documents" ;;
  ret tt.

(** Lines 203-208: what runs in the cell before the store is built. *)
Definition before_from_documents : M unit :=
  import "langchain" "Chroma" ;;
  import "johnsnowlabs" "embedding_retrieval" ;;
  (get_global "embedding_retrieval" ;;
   let* model := get_str "embeddings_model" in
   let* e := lift (JohnSnowLabsLangChainEmbedder model) in
   set_global "embeddings" (VEmbedder e)) ;;
  set_global "sample_query" (VStr "What is cystic fibrosis?").

(** Line 209: [db = Chroma.from_documents(collection_name="hls_docs",
    documents=documents, embedding=embeddings,
    persist_directory=db_persist_path)].  The callee is evaluated first,
    then the keyword arguments from left to right. *)
Definition from_documents : M unit :=
  get_global "Chroma" ;;
  let* documents := get_docs "documents" in
  let* v := get_global "embeddings" in
  match v with
  | VEmbedder embeddings =>
      let* db_persist_path := get_str "db_persist_path" in
      let* fs := get_files in
      let* db := lift (Chroma_from_documents "hls_docs" documents embeddings
                         db_persist_path fs) in
      set_global "db" (VChroma db)
  | _ => raise (TypeError "embeddings")
  end.

(** Line 210: [db.persist()]. *)
Definition persist : M unit :=
  let* v := get_global "db" in
  match v with
  | VChroma db => on_files (Chroma_persist db)
  | _ => raise (TypeError "db")
  end.

(** Lines 203-210. *)
Definition cell_build_vectorstore : M unit :=
  before_from_documents ;; from_documents ;; persist.

(** Lines 215-219. *)
Definition cell_query : M unit :=
  set_global "sample_query" (VStr "What is cystic fibrosis?") ;;
  (let* v := get_global "db" in
   match v with
   | VChroma db =>
       let* sample_query := get_str "sample_query" in
       let* similar := load_with (λ _, similarity_search db sample_query) in
       set_global "similar_docs" (VDocs similar)
   | _ => raise (TypeError "db")
   end) ;;
  let* similar_docs := get_docs "similar_docs" in
  match similar_docs with
  | [] => raise IndexError
  | _ :: _ => ret tt
  end.

(** Line 223. *)
Definition cell_display_similar : M unit :=
  get_global "display" ;;
  get_global "similar_docs" ;;
  ret tt.

(** Lines 238-244: reopening a saved store. *)
Definition cell_reopen : M unit :=
  import "langchain" "Chroma" ;;
  import "johnsnowlabs" "embedding_retrieval" ;;
  (let* v := get_global "db_persist_path" in set_global "db_persist_path" v) ;;
  (get_global "embedding_retrieval" ;;
   let* model := get_str "embeddings_model" in
   let* e := lift (JohnSnowLabsLangChainEmbedder model) in
   set_global "embeddings" (VEmbedder e)) ;;
  get_global "Chroma" ;;
  let* v := get_global "embeddings" in
  match v with
  | VEmbedder embeddings =>
      let* db_persist_path := get_str "db_persist_path" in
      let* fs := get_files in
      let* db := lift (Chroma_open "hls_docs" embeddings db_persist_path fs) in
      set_global "db" (VChroma db)
  | _ => raise (TypeError "embeddings")
  end.

(** *** Sessions *)

Inductive cell :=
| CInstall | CWidgets | CGetWidgets | CImportOs | CStagePdfs | CResetDbDir
| CLoadPdfs | CDefineSplitter | CSplit | CDisplayDocuments
| CBuildVectorstore | CQuery | CDisplaySimilar | CReopen.

Definition exec (c : cell) : M unit :=
  match c with
  | CInstall => cell_install
  | CWidgets => cell_widgets
  | CGetWidgets => cell_get_widgets
  | CImportOs => cell_import_os
  | CStagePdfs => cell_stage_pdfs
  | CResetDbDir => cell_reset_db_dir
  | CLoadPdfs => cell_load_pdfs
  | CDefineSplitter => cell_define_splitter
  | CSplit => cell_split
  | CDisplayDocuments => cell_display_documents
  | CBuildVectorstore => cell_build_vectorstore
  | CQuery => cell_query
  | CDisplaySimilar => cell_display_similar
  | CReopen => cell_reopen
  end.

(** The notebook from top to bottom. *)
Definition run_all : list cell :=
  [CInstall; CWidgets; CGetWidgets; CImportOs; CStagePdfs; CResetDbDir;
   CLoadPdfs; CDefineSplitter; CSplit; CDisplayDocuments;
   CBuildVectorstore; CQuery; CDisplaySimilar; CReopen].

(** A session runs cells one after the other, in any order the user
    picks; a cell that raises stops, the session goes on with the next
    cell. *)
Fixpoint run (cells : list cell) (st : notebook) : notebook :=
  match cells with
  | [] => st
  | c :: cells' => run cells' (exec c st).2
  end.

(** The outcome of each cell of a session, in order. *)
Fixpoint outcomes (cells : list cell) (st : notebook) : list (result unit) :=
  match cells with
  | [] => []
  | c :: cells' => (exec c st).1 :: outcomes cells' (exec c st).2
  end.
End Notebook.

(** ** A stand-in platform for running the model

    One concrete [SparkNLP] and one concrete [Platform], small enough to
    evaluate whole sessions.  The splitter accepts every setting and cuts a
    text every [chunk_size] characters; the loader makes one document per
    file; the store keeps the documents it is given. *)
Module Double.

Record params := mkParams {
  p_chunk_size : Z;
  p_chunk_overlap : Z;
  p_split_patterns : list string;
  p_trim_whitespace : bool
}.

Fixpoint cut (fuel width : nat) (s : string) : list string :=
  match fuel with
  | O => []
  | S fuel' =>
      match s with
      | EmptyString => []
      | _ => substring 0 width s
             :: cut fuel' width (substring width (String.length s - width) s)
      end
  end.

Definition fixed_width (p : params) (text : string) : list string :=
  cut (String.length text) (Z.to_nat (Z.max 1 (p_chunk_size p))) text.

#[local] Instance nlp : SparkNLP := {|
  Assembler := unit;
  TextSplitter := params;
  Pipe := params;
  nlp_start := Done tt;
  DocumentAssembler := Done tt;
  DocumentCharacterTextSplitter := mkParams 0 0 [] true;
  setInputCols := λ _ t, Done t;
  setOutputCol := λ _ t, Done t;
  setChunkSize := λ n t,
    Done (mkParams n (p_chunk_overlap t) (p_split_patterns t) (p_trim_whitespace t));
  setChunkOverlap := λ n t,
    Done (mkParams (p_chunk_size t) n (p_split_patterns t) (p_trim_whitespace t));
  setExplodeSplits := λ _ t, Done t;
  setPatternsAreRegex := λ _ t, Done t;
  setSplitPatterns := λ l t,
    Done (mkParams (p_chunk_size t) (p_chunk_overlap t) l (p_trim_whitespace t));
  setTrimWhitespace := λ b t,
    Done (mkParams (p_chunk_size t) (p_chunk_overlap t) (p_split_patterns t) b);
  LightPipeline := λ _ t, Done t;
  annotate := λ p text, Done (fixed_width p text)
|}.

(** [dbfs:/x] and [/dbfs/x] name the same file. *)
Definition mount (p : path) : path :=
  match p with
  | "dbfs:" :: rest => "dbfs" :: rest
  | _ => p
  end.

Definition files_below (dir : path) (fs : filesystem) : list (path * string) :=
  omap (λ e, match e.2 with
             | File c => if decide (dir `prefix_of` e.1) then Some (e.1, c) else None
             | Dir => None
             end) (map_to_list fs).

Definition copy_tree (src dst : path) (fs : filesystem) : filesystem :=
  foldr (λ e m, <[(dst ++ drop (length src) e.1)%list := File e.2]> m) fs
    (files_below src fs).

Fixpoint load_files (entries : list (path * string)) (h : heap)
    : list Document * heap :=
  match entries with
  | [] => ([], h)
  | (p, c) :: rest =>
      let r := Pos.of_succ_nat (size h) in
      let '(ds, h') := load_files rest (<[r := {["source" := String.concat "/" p]}]> h) in
      (mkDocument c r :: ds, h')
  end.

#[local] Instance platform : Platform := {|
  Embedder := string;
  VectorStore := list Document * string;
  installed := λ _, true;
  pip_install := Done tt;
  nltk_download := λ _ fs, Done fs;
  dbutils_fs_cp := λ src dst _ fs,
    Done (copy_tree (mount (parse_path src)) (mount (parse_path dst)) fs);
  PyPDFDirectoryLoader_load := λ dir fs h,
    Done (load_files (files_below (parse_path dir) fs) h);
  JohnSnowLabsLangChainEmbedder := λ model, Done model;
  Chroma_from_documents := λ _ docs _ dir _, Done (docs, dir);
  Chroma_persist := λ db fs,
    Done (<[(parse_path db.2 ++ ["index"])%list :=
             File (String.concat "|" (page_content <$> db.1))]> fs);
  Chroma_open := λ _ _ dir _, Done ([], dir);
  similarity_search := λ db _ h, Done (take 4 db.1, h)
|}.

(** A session that has run nothing yet: no widget set, one PDF in the
    source bucket, and an index left in the persistence directory by an
    earlier run. *)
Definition source_dir : path :=
  ["s3a:"; "db-gtm-industry-solutions"; "data"; "hls"; "llm_qa"].
Definition db_dir : path := ["dbfs"; "tmp"; "langchain_hls"; "db"].
Definition pdf_dir : path := ["dbfs"; "tmp"; "langchain_hls"; "pdfs"].

Definition old_files : filesystem :=
  list_to_map
    [(["dbfs"], Dir); (["dbfs"; "tmp"], Dir);
     (["dbfs"; "tmp"; "langchain_hls"], Dir);
     (db_dir, Dir); ((db_dir ++ ["index"])%list, File "earlier run");
     (pdf_dir, Dir); ((pdf_dir ++ ["old.pdf"])%list, File "stale")].

Definition new_session (fs : filesystem) : notebook :=
  mkNotebook databricks_builtins ∅ fs ∅.

Definition with_pdf : filesystem :=
  <[(source_dir ++ ["cf.pdf"])%list :=
      File "Cystic fibrosis is a genetic disorder."]> old_files.
(** The session after the widgets have been created and read. *)
Definition configured : notebook :=
  run [CWidgets; CGetWidgets] (new_session old_files).

(** One page, its metadata dictionary at location 1, and a splitter that
    cuts every twenty characters. *)
Definition page : Document :=
  mkDocument "Cystic fibrosis is a genetic disorder." 1%positive.
Definition page_store : heap := {[ 1%positive := {[ "page" := "0" ]} ]}.
Definition by_twenty : JslCharSplitter Pipe :=
  mkJslCharSplitter (mkParams 20 0 default_split_patterns true).

(** A library like [nlp], except that its pipeline refuses the empty
    text. *)
Definition picky_nlp : SparkNLP := {|
  Assembler := unit;
  TextSplitter := params;
  Pipe := params;
  nlp_start := Done tt;
  DocumentAssembler := Done tt;
  DocumentCharacterTextSplitter := mkParams 0 0 [] true;
  setInputCols := λ _ t, Done t;
  setOutputCol := λ _ t, Done t;
  setChunkSize := λ n t,
    Done (mkParams n (p_chunk_overlap t) (p_split_patterns t) (p_trim_whitespace t));
  setChunkOverlap := λ n t,
    Done (mkParams (p_chunk_size t) n (p_split_patterns t) (p_trim_whitespace t));
  setExplodeSplits := λ _ t, Done t;
  setPatternsAreRegex := λ _ t, Done t;
  setSplitPatterns := λ l t,
    Done (mkParams (p_chunk_size t) (p_chunk_overlap t) l (p_trim_whitespace t));
  setTrimWhitespace := λ b t,
    Done (mkParams (p_chunk_size t) (p_chunk_overlap t) (p_split_patterns t) b);
  LightPipeline := λ _ t, Done t;
  annotate := λ p text,
    match text with
    | EmptyString => Failed "empty text"
    | _ => Done (fixed_width p text)
    end
|}.

(** A blank page, with its own metadata dictionary. *)
Definition blank : Document := mkDocument EmptyString 2%positive.

(** The configured session with a regular file where the staging
    directory should be. *)
Definition file_in_the_way : notebook :=
  with_files (<[pdf_dir := File "not a directory"]> (remove_tree pdf_dir old_files))
    configured.

(** A session whose user has put the staging directory under
    [/dbfs/data]. *)
Definition data_session : notebook :=
  run [CWidgets; CGetWidgets]
    (mkNotebook databricks_builtins {[ "PDF_Path" := "/dbfs/data/pdfs" ]}
       old_files ∅).

(** A session holding an empty store in [db]. *)
Definition empty_store : notebook :=
  with_globals
    (<["db" := VChroma ([], "/dbfs/tmp/langchain_hls/db")]> databricks_builtins)
    (new_session old_files).

End Double.

(** ** Shapes of file trees *)

(** In a file tree every entry sits in directories: each ancestor of an
    entry is there and is a directory. *)
Definition tree_shaped (fs : filesystem) : Prop :=
  map_Forall (λ q _, Forall (λ a, fs !! a = Some Dir) (ancestors q)) fs.


(** ** Names and sessions *)

Section Unbound.
Context `{SparkNLP} `{Platform}.

(** The global [name] has no value. *)
Definition unbound (name : string) (st : notebook) : Prop :=
  globals st !! name = None.

(** A statement that leaves [name] without a value when it had none. *)
Definition keeps_unbound {A} (name : string) (m : M A) : Prop :=
  ∀ st, unbound name st → unbound name (m st).2.

(** A statement that gives a value to no global outside [names]: every
    other name reads afterwards as it did before. *)
Definition assigns_only {A} (names : list string) (m : M A) : Prop :=
  ∀ st n, n ∉ names → globals (m st).2 !! n = globals st !! n.

(** The characters [pdf_path.lstrip("/dbfs")] strips. *)
Definition dbfs_chars : list ascii := list_ascii_of_string "/dbfs".

(** The widget values after [dbutils.widgets.text(name, dflt)]. *)
Definition ensure_widget (name dflt : string) (w : gmap string string)
    : gmap string string :=
  match w !! name with
  | Some _ => w
  | None => <[name := dflt]> w
  end.

End Unbound.

(** * Properties *)

(** ** The chunker *)

Section ChunkerProperties.
Context `{SparkNLP} `{Platform}.

Lemma rbind_Ok {A B} (m : result A) (k : A → result B) (b : B) :
  rbind m k = Ok b → ∃ a, m = Ok a ∧ k a = Ok b.
Proof. destruct m as [a|e]; simpl; [eauto | discriminate]. Qed.

Lemma from_ext_Ok {A} (x : ext A) (a : A) : from_ext x = Ok a → x = Done a.
Proof. destruct x; simpl; congruence. Qed.

Lemma from_ext_Raise {A} (x : ext A) (e : exn) :
  from_ext x = Raise e → ∃ origin, e = ExternalError origin.
Proof. destruct x; simpl; [discriminate | intros [= <-]; eauto]. Qed.

(** When the import of [split_hay_doc] succeeds, the chunks of one
    document are its splits, in order, each paired with the document's
    metadata reference. *)
Lemma split_hay_doc_Ok (pipe : Pipe) (doc : Document) (chunks : list Document) :
  split_hay_doc pipe doc = Ok chunks ↔
  installed "langchain" = true ∧
  ∃ splits, annotate pipe (page_content doc) = Done splits ∧
            chunks = map (λ split, mkDocument split (metadata doc)) splits.
Proof.
  unfold split_hay_doc. split.
  - destruct (installed "langchain"); [|discriminate].
    intros (splits & Hs%from_ext_Ok & [= <-])%rbind_Ok. eauto.
  - intros (-> & splits & -> & ->). reflexivity.
Qed.

Lemma split_hay_doc_contents (pipe : Pipe) (doc : Document) (chunks : list Document) :
  split_hay_doc pipe doc = Ok chunks →
  annotate pipe (page_content doc) = Done (page_content <$> chunks).
Proof.
  intros (_ & splits & -> & ->)%split_hay_doc_Ok. f_equal.
  induction splits as [|x l IH]; simpl; [done | by f_equal].
Qed.

Lemma split_hay_doc_metadata (pipe : Pipe) (doc : Document) (chunks : list Document) :
  split_hay_doc pipe doc = Ok chunks →
  Forall (λ c, metadata c = metadata doc) chunks.
Proof.
  intros (_ & splits & _ & ->)%split_hay_doc_Ok.
  induction splits; simpl; constructor; done.
Qed.

(** The chunks of a list of documents are the chunks of each document,
    concatenated in the order of the documents. *)
Lemma split_hay_docs_Ok (pipe : Pipe) (docs chunks : list Document) :
  split_hay_docs pipe docs = Ok chunks →
  ∃ groups, chunks = concat groups ∧
            Forall2 (λ doc group, split_hay_doc pipe doc = Ok group) docs groups.
Proof.
  revert chunks. induction docs as [|doc docs IH]; simpl; intros chunks.
  - intros [= <-]. exists []. split; [done | constructor].
  - intros (here & Hhere & (rest & Hrest & [= <-])%rbind_Ok)%rbind_Ok.
    destruct (IH _ Hrest) as (groups & -> & HF).
    exists (here :: groups). split; [done | by constructor].
Qed.

(** Whatever holds of every split the library returns holds of the
    content of every chunk: the chunker adds and removes nothing. *)
Lemma split_documents_Forall (P : string → Prop)
    (s : JslCharSplitter Pipe) (docs chunks : list Document) :
  (∀ doc splits, doc ∈ docs →
     annotate (pipe s) (page_content doc) = Done splits → Forall P splits) →
  split_documents s docs = Ok chunks →
  Forall (λ c, P (page_content c)) chunks.
Proof.
  intros HP (groups & -> & HF)%split_hay_docs_Ok.
  apply Forall_concat. induction HF as [|doc group docs groups Hg _ IH].
  - constructor.
  - constructor.
    + apply split_hay_doc_contents in Hg as Hc.
      eapply Forall_fmap, HP; [left | exact Hc].
    + apply IH. intros d splits Hd. apply HP. by right.
Qed.

(** The two sentences of the specification about short documents cannot
    both hold of the same pipeline: the empty text is no longer than any
    chunk size, so it would have to give one chunk and none. *)
Remark one_chunk_and_no_chunk_exclude (pipe : Pipe) (chunk_size : nat) :
  ¬ ((∀ doc, (String.length (page_content doc) ≤ chunk_size)%nat →
        ∃ c, split_hay_doc pipe doc = Ok [c]) ∧
     (∀ doc, page_content doc = EmptyString → split_hay_doc pipe doc = Ok [])).
Proof.
  intros [Hone Hnone].
  destruct (Hone (mkDocument EmptyString 1%positive)) as [c Hc]; [simpl; lia|].
  rewrite Hnone in Hc; [discriminate | done].
Qed.

Lemma split_hay_docs_nil (pipe : Pipe) : split_hay_docs pipe [] = Ok [].
Proof. reflexivity. Qed.

(** Writing through a reference is seen through every copy of the
    reference. *)
Lemma dict_get_setitem (r : loc) (k v : string) (h : heap) :
  is_Some (h !! r) → dict_get r k (dict_setitem r k v h) = Some v.
Proof.
  intros [d Hd]. unfold dict_get, dict_setitem. rewrite Hd.
  rewrite lookup_insert_eq. simpl. apply lookup_insert_eq.
Qed.

(** The constructor does not look at [keep_seperators]. *)
Lemma keep_seperators_ignored co cs ex ks ks' re pats tw :
  JslCharSplitter_init co cs ex ks re pats tw =
  JslCharSplitter_init co cs ex ks' re pats tw.
Proof. reflexivity. Qed.

(** The constructor hands [chunk_size] and [chunk_overlap] unchanged to
    the library's [setChunkSize] and [setChunkOverlap]: when it returns,
    these two calls have returned, and when it raises, a library call has
    raised.  Whether the library accepts an overlap that is not below the
    size is not decided here. *)
Lemma JslCharSplitter_init_outcome
    (co cs : Z) (ex ks re : bool) (pats : list string) (tw : bool) :
  match JslCharSplitter_init co cs ex ks re pats tw with
  | Ok s => ∃ t t' t'',
      setChunkSize cs t = Done t' ∧ setChunkOverlap co t' = Done t''
  | Raise e => ∃ origin, e = ExternalError origin
  end.
Proof.
  unfold JslCharSplitter_init.
  repeat match goal with
         | |- context [from_ext ?x] =>
             destruct x eqn:?; simpl; [| by eauto]
         end.
  eauto.
Qed.

(** C8 (amended): every chunk emitted from a document holds the
    document's metadata object itself, by reference: nothing is copied,
    and chunking does not write to it.  A later write through a chunk's
    metadata is therefore seen through the parent's. *)
Theorem chunks_share_parent_metadata
    (s : JslCharSplitter Pipe) (docs chunks : list Document) :
  split_documents s docs = Ok chunks →
  ∃ groups, chunks = concat groups ∧
    Forall2 (λ doc group,
      split_hay_doc (pipe s) doc = Ok group ∧
      ∀ c, c ∈ group →
        metadata c = metadata doc ∧
        ∀ (h : heap) k v, is_Some (h !! metadata doc) →
          dict_get (metadata doc) k (dict_setitem (metadata c) k v h) = Some v)
      docs groups.
Proof.
  intros (groups & -> & HF)%split_hay_docs_Ok. exists groups. split; [done|].
  eapply Forall2_impl; [exact HF|]. intros doc group Hg. split; [done|].
  intros c Hc.
  pose proof (split_hay_doc_metadata _ _ _ Hg) as Hm.
  rewrite Forall_forall in Hm. specialize (Hm c Hc). split; [done|].
  intros h k v Hh. rewrite Hm. by apply dict_get_setitem.
Qed.

(** *** How the chunker composes and fails *)

Lemma rbind_assoc {A B C} (m : result A) (k : A → result B) (k' : B → result C) :
  rbind (rbind m k) k' = rbind m (λ a, rbind (k a) k').
Proof. by destruct m. Qed.

(** X1: chunking a concatenation of two document lists is chunking each
    list and concatenating the chunks; the first list is chunked first, so
    its failure wins. *)
Theorem split_hay_docs_app (pipe : Pipe) (xs ys : list Document) :
  split_hay_docs pipe (xs ++ ys)%list =
  rbind (split_hay_docs pipe xs) (λ a,
    rbind (split_hay_docs pipe ys) (λ b, Ok (a ++ b)%list)).
Proof.
  induction xs as [|x xs IH]; simpl.
  - by destruct (split_hay_docs pipe ys).
  - rewrite IH. destruct (split_hay_doc pipe x) as [here|e]; simpl; [|done].
    destruct (split_hay_docs pipe xs) as [a|e]; simpl; [|done].
    destruct (split_hay_docs pipe ys) as [b|e]; simpl; [|done].
    by rewrite (assoc_L (++)%list).
Qed.

(** The chunks the splits of each document turn into. *)
Lemma split_hay_docs_of_splits (pipe : Pipe) (docs : list Document)
    (splitss : list (list string)) :
  docs = [] ∨ installed "langchain" = true →
  Forall2 (λ doc splits, annotate pipe (page_content doc) = Done splits)
    docs splitss →
  split_hay_docs pipe docs =
  Ok (concat (zip_with (λ doc splits,
                map (λ split, mkDocument split (metadata doc)) splits)
              docs splitss)).
Proof.
  intros Hi HF. induction HF as [|doc splits docs splitss Hd _ IH]; simpl; [done|].
  destruct Hi as [|Hi]; [done|].
  unfold split_hay_doc. rewrite Hi, Hd. simpl. rewrite IH; [done | by right].
Qed.

(** [split_hay_docs] returns only if there was no document to import
    for, or the import worked. *)
Lemma split_hay_docs_Ok_installed (pipe : Pipe) (docs chunks : list Document) :
  split_hay_docs pipe docs = Ok chunks →
  docs = [] ∨ installed "langchain" = true.
Proof.
  destruct docs as [|doc docs]; [by left|]. simpl.
  intros (here & (Hi & _)%split_hay_doc_Ok & _)%rbind_Ok. by right.
Qed.

(** X2: [split_documents] returns exactly when the import inside
    [split_hay_doc] works (or there is no document, so that it never
    runs) and the library returns splits for every document; the chunks
    are then those splits, document by document and in the library's
    order, each with the metadata reference of the document it came
    from. *)
Theorem split_documents_Ok_iff
    (s : JslCharSplitter Pipe) (docs chunks : list Document) :
  split_documents s docs = Ok chunks ↔
  (docs = [] ∨ installed "langchain" = true) ∧
  ∃ splitss,
    Forall2 (λ doc splits, annotate (pipe s) (page_content doc) = Done splits)
      docs splitss ∧
    chunks = concat (zip_with (λ doc splits,
                       map (λ split, mkDocument split (metadata doc)) splits)
                     docs splitss).
Proof.
  unfold split_documents. split.
  - intros Hc. split; [by eapply split_hay_docs_Ok_installed|].
    revert chunks Hc. induction docs as [|doc docs IH]; simpl; intros chunks.
    + intros [= <-]. exists []. split; [constructor | done].
    + intros (here & (_ & splits & Hs & ->)%split_hay_doc_Ok &
              (rest & Hrest & [= <-])%rbind_Ok)%rbind_Ok.
      destruct (IH _ Hrest) as (splitss & HF & ->).
      exists (splits :: splitss). split; [by constructor | done].
  - intros (Hi & splitss & HF & ->). by apply split_hay_docs_of_splits.
Qed.

(** X3: the texts of the chunks, read in order, are the splits of the
    documents, read in order: nothing is added, dropped, reordered or
    edited, and there are as many chunks as splits. *)
Theorem split_documents_contents
    (s : JslCharSplitter Pipe) (docs chunks : list Document)
    (splitss : list (list string)) :
  Forall2 (λ doc splits, annotate (pipe s) (page_content doc) = Done splits)
    docs splitss →
  split_documents s docs = Ok chunks →
  page_content <$> chunks = concat splitss ∧
  length chunks = sum_list (length <$> splitss).
Proof.
  intros HF Hc. unfold split_documents in Hc.
  pose proof (split_hay_docs_Ok_installed _ _ _ Hc) as Hi.
  rewrite (split_hay_docs_of_splits _ _ _ Hi HF) in Hc. injection Hc as <-.
  assert (Hpc : page_content <$>
            concat (zip_with (λ doc splits,
                      map (λ split, mkDocument split (metadata doc)) splits)
                    docs splitss) = concat splitss).
  { clear -HF. induction HF as [|doc splits docs splitss _ _ IH]; simpl; [done|].
    rewrite fmap_app, IH. f_equal.
    induction splits as [|x l IHl]; simpl; [done | by f_equal]. }
  split; [exact Hpc|].
  rewrite <- (length_fmap page_content), Hpc.
  clear. induction splitss as [|l ls IH]; simpl; [done|].
  by rewrite length_app, IH.
Qed.

(** X4: one failing document loses everything.  With the import of
    [split_hay_doc] working, when the library fails on a document and has
    returned splits for all documents before it, [split_documents] raises
    the library's exception for that document, whatever the later
    documents are; no chunk of any document is returned. *)
Theorem split_documents_first_failure
    (s : JslCharSplitter Pipe) (before after : list Document)
    (doc : Document) (origin : string) :
  installed "langchain" = true →
  Forall (λ d, ∃ splits, annotate (pipe s) (page_content d) = Done splits)
    before →
  annotate (pipe s) (page_content doc) = Failed origin →
  split_documents s (before ++ doc :: after)%list = Raise (ExternalError origin).
Proof.
  intros Hi Hb Hd. unfold split_documents.
  induction Hb as [|d before [splits Hs] _ IH]; simpl.
  - unfold split_hay_doc. by rewrite Hi, Hd.
  - unfold split_hay_doc at 1. rewrite Hi, Hs. simpl. by rewrite IH.
Qed.

(** X5: [split_documents] raises in two ways only, and never on an empty
    list: [ImportError] from the import inside [split_hay_doc] when the
    package cannot be found, and otherwise what the library raised for
    one of the documents. *)
Theorem split_documents_Raise
    (s : JslCharSplitter Pipe) (docs : list Document) (e : exn) :
  split_documents s docs = Raise e →
  docs ≠ [] ∧
  ((installed "langchain" = false ∧ e = ImportError "langchain") ∨
   (installed "langchain" = true ∧
    ∃ doc origin, doc ∈ docs ∧
      annotate (pipe s) (page_content doc) = Failed origin ∧
      e = ExternalError origin)).
Proof.
  unfold split_documents. intros He. split; [by destruct docs|].
  destruct (installed "langchain") eqn:Hi; [right | left].
  - split; [done|]. revert He.
    induction docs as [|doc docs IH]; simpl; [done|].
    unfold split_hay_doc at 1. rewrite Hi.
    destruct (annotate (pipe s) (page_content doc)) as [splits|origin] eqn:Hd; simpl.
    + destruct (split_hay_docs (pipe s) docs) as [rest|e'] eqn:Hr; simpl; [done|].
      intros [= ->]. destruct (IH eq_refl) as (d & o & Hin & Ha & ->).
      exists d, o. split_and!; [by right | done | done].
    + intros [= <-]. exists doc, origin. split_and!; [left | done | done].
  - split; [done|]. destruct docs as [|doc docs]; [done|]. simpl in He.
    unfold split_hay_doc in He. rewrite Hi in He. simpl in He. congruence.
Qed.
End ChunkerProperties.

(** ** Files *)









(** *** Well-formed trees and blocked paths *)

Lemma blocking_file_None (p : path) (fs : filesystem) :
  blocking_file p fs = None ↔ ∀ a, a ∈ ancestors p → is_file (fs !! a) = false.
Proof.
  unfold blocking_file. rewrite fmap_None, list_find_None, Forall_forall.
  split; intros Hf a Ha; specialize (Hf a Ha);
    destruct (is_file (fs !! a)); congruence.
Qed.


Lemma tree_shaped_blocking_file (p : path) (fs : filesystem) :
  tree_shaped fs → is_Some (fs !! p) → blocking_file p fs = None.
Proof.
  intros Hwf [n Hn]. apply blocking_file_None. intros a Ha.
  pose proof (map_Forall_lookup_1 _ _ _ _ Hwf Hn) as Hanc. simpl in Hanc.
  rewrite Forall_forall in Hanc. by rewrite (Hanc a Ha).
Qed.




Lemma string_length_app (s1 s2 : string) :
  String.length (s1 +:+ s2) = String.length s1 + String.length s2.
Proof.
  induction s1 as [|c s1 IH]; [done|].
  change (S (String.length (s1 +:+ s2)) = S (String.length s1 + String.length s2)).
  by rewrite IH.
Qed.

(** [s.lstrip(chars)] cuts off the longest run of leading characters that
    occur in [chars], however they are ordered. *)
Lemma lstrip_spec (chars : list ascii) (s : string) :
  ∃ cut, s = cut +:+ lstrip chars s ∧
         Forall (λ c, c ∈ chars) (list_ascii_of_string cut) ∧
         match lstrip chars s with
         | EmptyString => True
         | String c _ => c ∉ chars
         end.
Proof.
  induction s as [|c s (cut & Hs & Hcut & Hhead)]; simpl.
  - exists EmptyString. split_and!; [done | constructor | done].
  - case_bool_decide as Hc.
    + exists (String c cut).
      split_and!; [exact (f_equal (String c) Hs) | simpl; by constructor | done].
    + exists EmptyString. split_and!; [done | constructor | done].
Qed.


(** *** Components of a stripped path *)

Lemma components_weight (cur s : string) :
  sum_list (String.length <$> components cur s)
  = String.length cur + non_slash s.
Proof.
  revert cur. induction s as [|c s IH]; intros cur; simpl; [lia|].
  destruct (Ascii.eqb c "/"); simpl.
  - rewrite IH. simpl. lia.
  - rewrite IH, string_length_app. simpl. lia.
Qed.

Lemma parse_path_weight (s : string) :
  sum_list (String.length <$> parse_path s) = non_slash s.
Proof.
  unfold parse_path.
  pose proof (components_weight EmptyString s) as Hw. simpl in Hw.
  rewrite <- Hw. clear Hw.
  assert (Hcons : ∀ (a : nat) l', sum_list (a :: l') = a + sum_list l') by done.
  induction (components EmptyString s) as [|x l IH]; [done|].
  destruct (decide (x ≠ EmptyString)) as [Hx|Hx].
  - rewrite filter_cons_True by done. by rewrite !fmap_cons, !Hcons, IH.
  - rewrite filter_cons_False by done. rewrite IH, fmap_cons, Hcons.
    destruct x; [done | by destruct Hx].
Qed.

Lemma parse_path_slash (s : string) :
  parse_path (String "/" s) = parse_path s.
Proof. unfold parse_path. simpl. by rewrite filter_cons_False by (by intros []). Qed.

Lemma parse_path_lstrip_slash (s : string) :
  parse_path (lstrip ["/"%char] s) = parse_path s.
Proof.
  induction s as [|c s IH]; simpl; [done|].
  case_bool_decide as Hc; [|done].
  apply list_elem_of_singleton in Hc as ->. by rewrite parse_path_slash.
Qed.

Lemma non_slash_lstrip (chars : list ascii) (s : string) :
  (non_slash (lstrip chars s) ≤ non_slash s)%nat.
Proof.
  induction s as [|c s IH]; simpl; [done|]. case_bool_decide; simpl; lia.
Qed.

Lemma lstrip_dbfs_after_slashes (s : string) :
  lstrip dbfs_chars s = lstrip dbfs_chars (lstrip ["/"%char] s).
Proof.
  induction s as [|c s IH]; simpl; [done|].
  destruct (bool_decide (c ∈ ["/"%char])) eqn:Hc; [|done].
  apply bool_decide_eq_true, list_elem_of_singleton in Hc as ->.
  by rewrite bool_decide_true by (by left).
Qed.

(** Stripping a staging path keeps its components exactly when, after
    its leading slashes, it starts with none of the stripped letters. *)
Lemma parse_path_lstrip_dbfs (rest : string) :
  parse_path (lstrip dbfs_chars rest) = parse_path rest ↔
  match lstrip ["/"%char] rest with
  | EmptyString => True
  | String c _ => c ∉ dbfs_chars
  end.
Proof.
  rewrite lstrip_dbfs_after_slashes, <- (parse_path_lstrip_slash rest).
  destruct (lstrip_spec ["/"%char] rest) as (_ & _ & _ & Hhead).
  destruct (lstrip ["/"%char] rest) as [|c t]; [done|]. simpl.
  case_bool_decide as Hc; [|done]. split; [|done]. intros Heq. exfalso.
  apply (f_equal (λ p, sum_list (String.length <$> p))) in Heq.
  rewrite !parse_path_weight in Heq. simpl in Heq.
  pose proof (non_slash_lstrip dbfs_chars t).
  destruct (Ascii.eqb_spec c "/") as [->|_]; [|simpl in Heq; lia].
  apply Hhead. left.
Qed.

Section NotebookProperties.
Context `{SparkNLP} `{Platform}.

(** *** Running statements step by step *)

Lemma bind_ret {A B} (a : A) (k : A → M B) st : bind (ret a) k st = k a st.
Proof. reflexivity. Qed.

Lemma bind_raise {A B} (e : exn) (k : A → M B) st :
  bind (raise e) k st = (Raise e, st).
Proof. reflexivity. Qed.

Lemma bind_assoc {A B C} (m : M A) (k : A → M B) (k' : B → M C) st :
  bind (bind m k) k' st = bind m (λ a, bind (k a) k') st.
Proof. unfold bind. destruct (m st) as [[a|e] st']; reflexivity. Qed.

Lemma bind_set_global {B} name v (k : unit → M B) st :
  bind (set_global name v) k st =
  k tt (with_globals (<[name := v]> (globals st)) st).
Proof. reflexivity. Qed.

Lemma bind_get_global {B} name (k : value → M B) st v :
  globals st !! name = Some v → bind (get_global name) k st = k v st.
Proof. intros Hv. unfold bind, get_global. by rewrite Hv. Qed.

Lemma bind_get_global_None {B} name (k : value → M B) st :
  globals st !! name = None →
  bind (get_global name) k st = (Raise (NameError name), st).
Proof. intros Hv. unfold bind, get_global. by rewrite Hv. Qed.

Lemma bind_get_str {B} name (k : string → M B) st s :
  globals st !! name = Some (VStr s) → bind (get_str name) k st = k s st.
Proof.
  intros Hv. unfold get_str. rewrite bind_assoc.
  by rewrite (bind_get_global _ _ _ _ Hv).
Qed.

Lemma bind_get_files {B} (k : filesystem → M B) st :
  bind get_files k st = k (files st) st.
Proof. reflexivity. Qed.

Lemma bind_set_files {B} fs (k : unit → M B) st :
  bind (set_files fs) k st = k tt (with_files fs st).
Proof. reflexivity. Qed.


Ltac lookup_now :=
  cbn [globals files widgets objects
       with_globals with_files with_widgets with_objects];
  repeat (rewrite lookup_insert_eq || rewrite lookup_insert_ne by done);
  first [eassumption | reflexivity].

Ltac lookups :=
  repeat (rewrite lookup_insert_eq || rewrite lookup_insert_ne by done).

Ltac nb_step :=
  first
    [ rewrite bind_assoc
    | rewrite bind_ret
    | rewrite bind_raise
    | rewrite bind_set_global
    | rewrite bind_get_files
    | rewrite bind_set_files
    | erewrite bind_get_str by lookup_now
    | erewrite bind_get_global by lookup_now
    | rewrite bind_get_global_None by lookup_now ].



(** *** Names that no cell assigns *)

Lemma keeps_bind {A B} name (m : M A) (k : A → M B) :
  keeps_unbound name m → (∀ a, keeps_unbound name (k a)) →
  keeps_unbound name (bind m k).
Proof.
  intros Hm Hk st Hst. unfold bind. specialize (Hm st Hst).
  destruct (m st) as [[a|e] st']; simpl in *; [by apply Hk | done].
Qed.

Lemma keeps_pure {A} name (m : M A) :
  (∀ st, (m st).2 = st) → keeps_unbound name m.
Proof. intros Hm st Hst. by rewrite Hm. Qed.

Lemma keeps_set_global name x v :
  x ≠ name → keeps_unbound name (set_global x v).
Proof.
  intros Hne st Hst. unfold unbound in *. simpl. by rewrite lookup_insert_ne.
Qed.

Lemma keeps_same_globals {A} name (m : M A) :
  (∀ st, globals (m st).2 = globals st) → keeps_unbound name m.
Proof. intros Hm st Hst. unfold unbound. by rewrite Hm. Qed.

Lemma keeps_get_global name x : keeps_unbound name (get_global x).
Proof.
  apply keeps_pure. intros st. unfold get_global. by destruct (globals st !! x).
Qed.

Lemma keeps_on_files name f : keeps_unbound name (on_files f).
Proof.
  apply keeps_same_globals. intros st.
  unfold on_files, bind, get_files, lift, set_files.
  by destruct (f (files st)).
Qed.

Lemma keeps_load_with name f : keeps_unbound name (load_with f).
Proof.
  apply keeps_same_globals. intros st. unfold load_with.
  by destruct (f (files st) (objects st)) as [[ds h]|].
Qed.

Lemma keeps_restartPython name :
  databricks_builtins !! name = None → keeps_unbound name restartPython.
Proof. intros Hb st _. exact Hb. Qed.

Ltac keeps :=
  repeat first
    [ apply keeps_get_global
    | apply keeps_on_files
    | apply keeps_load_with
    | apply keeps_set_global; done
    | apply keeps_same_globals; reflexivity
    | apply keeps_bind; [|intros ?]
    | apply keeps_restartPython; reflexivity
    | apply keeps_pure; reflexivity
    | apply keeps_same_globals; intros ?;
      match goal with |- context [match ?x with _ => _ end] => destruct x end;
      reflexivity
    | match goal with
      | |- keeps_unbound _ (match ?v with _ => _ end) => destruct v
      end ].

Lemma exec_keeps_documents_unbound (c : cell) :
  keeps_unbound "documents" (exec c).
Proof.
  destruct c; simpl;
    unfold cell_install, cell_widgets, cell_get_widgets, cell_import_os,
      cell_stage_pdfs, clear_pdf_dir, copy_pdfs, cell_load_pdfs,
      cell_define_splitter, cell_split, make_splitter, split_docs,
      cell_display_documents, cell_build_vectorstore, before_from_documents,
      from_documents, persist, cell_query, cell_display_similar, cell_reopen,
      widgets_text, widgets_get, import, import_std, get_str, get_docs, get_def;
    keeps.
Qed.

Lemma run_keeps_documents_unbound (cells : list cell) (st : notebook) :
  unbound "documents" st → unbound "documents" (run cells st).
Proof.
  revert st. induction cells as [|c cells IH]; simpl; intros st Hst; [done|].
  by apply IH, exec_keeps_documents_unbound.
Qed.

(** *** Taking a completed statement apart *)

Lemma bind_Ok_inv {A B} (m : M A) (k : A → M B) st b st2 :
  bind m k st = (Ok b, st2) →
  ∃ a st1, m st = (Ok a, st1) ∧ k a st1 = (Ok b, st2).
Proof.
  unfold bind. destruct (m st) as [[a|e] st1]; [eauto | discriminate].
Qed.

Lemma bind_fail {A B} (m : M A) (k : A → M B) st e st1 :
  m st = (Raise e, st1) → bind m k st = (Raise e, st1).
Proof. intros Hm. unfold bind. by rewrite Hm. Qed.

Lemma get_global_Ok_inv name st v st1 :
  get_global name st = (Ok v, st1) → globals st !! name = Some v ∧ st1 = st.
Proof.
  unfold get_global. destruct (globals st !! name); intros [= <- <-]; done.
Qed.

Lemma get_docs_Ok_inv name st ds st1 :
  get_docs name st = (Ok ds, st1) →
  globals st !! name = Some (VDocs ds) ∧ st1 = st.
Proof.
  intros (v & st' & [Hv ->]%get_global_Ok_inv & Hk)%bind_Ok_inv.
  destruct v; try discriminate. by injection Hk as -> ->.
Qed.

Lemma get_def_same_state name st r st1 :
  get_def name st = (r, st1) → st1 = st.
Proof.
  unfold get_def, bind, get_global. destruct (globals st !! name) as [v|].
  - destruct v; try (by intros [= _ <-]). case_bool_decide; by intros [= _ <-].
  - by intros [= _ <-].
Qed.

Lemma get_str_cases name st :
  (∃ s, globals st !! name = Some (VStr s) ∧ get_str name st = (Ok s, st)) ∨
  (∃ e, get_str name st = (Raise e, st)).
Proof.
  unfold get_str, bind, get_global.
  destruct (globals st !! name) as [[]|]; eauto.
Qed.

(** Line 195 binds [texts] to what [split_documents] returns for [docs]. *)
Lemma split_docs_Ok_inv st st1 :
  split_docs st = (Ok tt, st1) →
  ∃ s docs texts,
    globals st !! "jsl_splitter" = Some (VSplitter s) ∧
    globals st !! "docs" = Some (VDocs docs) ∧
    split_documents s docs = Ok texts ∧
    st1 = with_globals (<["texts" := VDocs texts]> (globals st)) st.
Proof.
  unfold split_docs.
  intros (v & st' & [Hv ->]%get_global_Ok_inv & Hk)%bind_Ok_inv.
  destruct v as [| | | | |s| |]; try discriminate.
  apply bind_Ok_inv in Hk as (docs & st' & [Hd ->]%get_docs_Ok_inv & Hk).
  apply bind_Ok_inv in Hk as ([] & st' & ->%get_def_same_state & Hk).
  apply bind_Ok_inv in Hk as ([] & st' & Hst' & Hk).
  assert (st' = st) as ->.
  { destruct docs; [by injection Hst' as <- | by apply get_def_same_state in Hst']. }
  apply bind_Ok_inv in Hk as (texts & st' & Hl & Hk).
  unfold lift in Hl. injection Hl as Hl <-. injection Hk as <-.
  by exists s, docs, texts.
Qed.

(** What lines 203-208 leave behind: only globals change, [documents] and
    [db] are not among them, and on completion [Chroma] is bound. *)
Lemma before_from_documents_effect st :
  ∃ g, (before_from_documents st).2 = with_globals g st ∧
       g !! "documents" = globals st !! "documents" ∧
       g !! "db" = globals st !! "db" ∧
       ((before_from_documents st).1 = Ok tt → is_Some (g !! "Chroma")).
Proof.
  unfold before_from_documents, import.
  destruct (installed "langchain");
    [|exists (globals st); by destruct st].
  destruct (installed "johnsnowlabs"); repeat nb_step;
    [|eexists; split; [reflexivity|]; simpl; lookups; done].
  match goal with |- context [bind (get_str ?n) ?k ?s] =>
    destruct (get_str_cases n s) as [(model & Hm & Hg)|(e & Hg)] end.
  - erewrite bind_get_str by exact Hm.
    destruct (JohnSnowLabsLangChainEmbedder model) as [emb|origin];
      unfold lift, bind; simpl;
      (eexists; split; [reflexivity|]); lookups; eauto.
  - rewrite (bind_fail _ _ _ _ _ Hg).
    eexists. split; [reflexivity|]. simpl. lookups. done.
Qed.

(** *** What a statement assigns and what it leaves alone *)

Lemma assigns_bind {A B} names (m : M A) (k : A → M B) :
  assigns_only names m → (∀ a, assigns_only names (k a)) →
  assigns_only names (bind m k).
Proof.
  intros Hm Hk st n Hn. unfold bind. specialize (Hm st n Hn).
  destruct (m st) as [[a|e] st']; simpl in *; [|done].
  by rewrite (Hk a st' n Hn).
Qed.

Lemma assigns_same_globals {A} names (m : M A) :
  (∀ st, globals (m st).2 = globals st) → assigns_only names m.
Proof. intros Hm st n _. by rewrite Hm. Qed.

Lemma assigns_set_global names x v :
  x ∈ names → assigns_only names (set_global x v).
Proof.
  intros Hx st n Hn. simpl. rewrite lookup_insert_ne; [done|].
  by intros ->.
Qed.

Lemma same_globals_get_global x st : globals (get_global x st).2 = globals st.
Proof. unfold get_global. by destruct (globals st !! x). Qed.

Lemma same_globals_on_files f st : globals (on_files f st).2 = globals st.
Proof.
  unfold on_files, bind, get_files, lift, set_files. by destruct (f (files st)).
Qed.

Lemma same_globals_load_with f st : globals (load_with f st).2 = globals st.
Proof.
  unfold load_with. by destruct (f (files st) (objects st)) as [[ds h]|].
Qed.

Ltac assigns :=
  repeat first
    [ apply assigns_same_globals; first
        [ apply same_globals_get_global
        | apply same_globals_on_files
        | apply same_globals_load_with
        | reflexivity ]
    | apply assigns_set_global; by repeat constructor
    | apply assigns_bind; [|intros ?]
    | match goal with
      | |- assigns_only _ (match ?v with _ => _ end) => destruct v
      end ].

(** X6: the cell of lines 194-195 gives a value to [jsl_splitter] and
    [texts] and to no other global: whether it completes or raises, every
    other name reads as before. *)
Theorem cell_split_frame (st : notebook) (n : string) :
  n ≠ "jsl_splitter" → n ≠ "texts" →
  globals (cell_split st).2 !! n = globals st !! n.
Proof.
  intros H1 H2.
  assert (Ha : assigns_only ["jsl_splitter"; "texts"] cell_split).
  { unfold cell_split, make_splitter, split_docs, get_def, get_docs. assigns. }
  apply Ha. rewrite !not_elem_of_cons. split_and!; [done..|apply not_elem_of_nil].
Qed.

(** *** The staging directory *)

(** X7: line 84 strips characters, not a prefix.  For a staging path
    [/dbfs/<rest>] the copy target is [dbfs:/] followed by [<rest>]
    without its leading characters among [/], [d], [b], [f], [s]; the
    name is bound even when the copy that follows raises.  Below the
    DBFS root, the target has the components of the staging directory
    exactly when [<rest>], after its leading slashes, is empty or starts
    with none of [d], [b], [f], [s]. *)
Theorem modified_pdf_path_strips_characters (st : notebook) (rest : string) :
  globals st !! "pdf_path" = Some (VStr ("/dbfs/" +:+ rest)) →
  globals (copy_pdfs st).2 !! "modified_pdf_path"
    = Some (VStr ("dbfs:/" +:+ lstrip dbfs_chars rest)) ∧
  (parse_path (lstrip dbfs_chars rest) = parse_path rest ↔
   match lstrip ["/"%char] rest with
   | EmptyString => True
   | String c _ => c ∉ dbfs_chars
   end).
Proof.
  intros Hp. split; [|apply parse_path_lstrip_dbfs].
  unfold copy_pdfs. repeat nb_step.
  match goal with |- globals (?m ?s).2 !! _ = _ =>
    assert (Ha : assigns_only [] m) by (unfold get_str; assigns) end.
  rewrite Ha by apply not_elem_of_nil. simpl. by rewrite lookup_insert_eq.
Qed.

(** X8: when the staging path names a regular file, lines 75-81 do not
    replace it: [rmtree] swallows its error, [os.makedirs] raises
    [FileExistsError], and the file tree is exactly as before. *)
Theorem clear_pdf_dir_regular_file (st : notebook) (s c : string) :
  globals st !! "pdf_path" = Some (VStr s) →
  parse_path s ≠ [] →
  tree_shaped (files st) →
  files st !! parse_path s = Some (File c) →
  (clear_pdf_dir st).1 = Raise (FileExistsError (parse_path s)) ∧
  files (clear_pdf_dir st).2 = files st.
Proof.
  intros Hpdf Hp Hwf Hn.
  assert (Hnode : fs_node (files st) (parse_path s) = Some (File c))
    by (destruct (parse_path s); done).
  assert (Hblock : blocking_file (parse_path s) (files st) = None)
    by (apply tree_shaped_blocking_file; eauto).
  unfold clear_pdf_dir, import_std. repeat nb_step.
  cbn [files with_globals]. unfold os_path_exists. rewrite Hnode.
  rewrite bool_decide_true by eauto. repeat nb_step.
  cbn [files with_files with_globals]. unfold shutil_rmtree. rewrite Hnode.
  unfold on_files. repeat nb_step. cbn [files with_files with_globals].
  unfold os_makedirs. rewrite Hblock, Hnode. by unfold lift, bind.
Qed.


(** X10: without a global [pdf_path] (the widget cell was not run), lines
    75-81 raise [NameError] before touching any file; only [os] and
    [shutil] have been imported. *)
Theorem clear_pdf_dir_unbound (st : notebook) :
  unbound "pdf_path" st →
  (clear_pdf_dir st).1 = Raise (NameError "pdf_path") ∧
  files (clear_pdf_dir st).2 = files st ∧
  ∀ n, n ≠ "os" → n ≠ "shutil" →
       globals (clear_pdf_dir st).2 !! n = globals st !! n.
Proof.
  intros Hu. unfold unbound in Hu.
  unfold clear_pdf_dir, import_std. repeat nb_step.
  unfold get_str. rewrite bind_assoc. rewrite bind_get_global_None by lookup_now.
  split_and!; [done..|]. intros n H1 H2. simpl.
  by rewrite !lookup_insert_ne.
Qed.

(** *** The persistence directory *)


(** *** Installing, widgets *)

Lemma bind_lift_Ok {A B} (a : A) (k : A → M B) st :
  bind (lift (Ok a)) k st = k a st.
Proof. reflexivity. Qed.

Lemma bind_lift_Raise {A B} (e : exn) (k : A → M B) st :
  bind (lift (Raise e)) k st = (Raise e, st).
Proof. reflexivity. Qed.

Lemma lookup_ensure_widget (name dflt n : string) (w : gmap string string) :
  ensure_widget name dflt w !! n =
  if decide (n = name) then Some (default dflt (w !! name)) else w !! n.
Proof.
  unfold ensure_widget. destruct (w !! name) as [v|] eqn:Hw.
  - case_decide as Hn; [by subst | done].
  - case_decide as Hn; [subst; by rewrite lookup_insert_eq
                        | by rewrite lookup_insert_ne].
Qed.

Lemma bind_widgets_text {B} name dflt (k : unit → M B) st :
  is_Some (globals st !! "dbutils") →
  bind (widgets_text name dflt) k st =
  k tt (with_widgets (ensure_widget name dflt (widgets st)) st).
Proof.
  intros [d Hd]. unfold widgets_text. rewrite bind_assoc.
  rewrite (bind_get_global _ _ _ _ Hd). unfold bind, ensure_widget.
  destruct (widgets st !! name); [by destruct st | done].
Qed.

Lemma widgets_text_run name dflt st :
  is_Some (globals st !! "dbutils") →
  widgets_text name dflt st =
  (Ok tt, with_widgets (ensure_widget name dflt (widgets st)) st).
Proof.
  intros [d Hd]. unfold widgets_text.
  rewrite (bind_get_global _ _ _ _ Hd). unfold ensure_widget.
  destruct (widgets st !! name); [by destruct st | done].
Qed.

Lemma bind_widgets_get {B} name (k : string → M B) st v :
  is_Some (globals st !! "dbutils") → widgets st !! name = Some v →
  bind (widgets_get name) k st = k v st.
Proof.
  intros [d Hd] Hv. unfold widgets_get. rewrite bind_assoc.
  rewrite (bind_get_global _ _ _ _ Hd). unfold bind. by rewrite Hv.
Qed.

(** X13: lines 36-54 read back what the widgets hold.  With [dbutils] at
    hand the two cells complete, and each of the four names is bound to
    the value the user gave the widget, or to the default of the source
    when the widget did not exist; values already given are not
    overwritten by the defaults. *)
Theorem widgets_then_get (st : notebook) :
  is_Some (globals st !! "dbutils") →
  (cell_widgets st).1 = Ok tt ∧
  (cell_get_widgets (cell_widgets st).2).1 = Ok tt ∧
  (∀ name v, widgets st !! name = Some v →
             widgets (cell_get_widgets (cell_widgets st).2).2 !! name = Some v) ∧
  globals (cell_get_widgets (cell_widgets st).2).2 !! "pdf_path"
    = Some (VStr (default "/dbfs/tmp/langchain_hls/pdfs"
                    (widgets st !! "PDF_Path"))) ∧
  globals (cell_get_widgets (cell_widgets st).2).2 !! "source_pdfs"
    = Some (VStr (default "s3a://db-gtm-industry-solutions/data/hls/llm_qa/"
                    (widgets st !! "Source_Documents"))) ∧
  globals (cell_get_widgets (cell_widgets st).2).2 !! "db_persist_path"
    = Some (VStr (default "/dbfs/tmp/langchain_hls/db"
                    (widgets st !! "Vectorstore_Persist_Path"))) ∧
  globals (cell_get_widgets (cell_widgets st).2).2 !! "embeddings_model"
    = Some (VStr (default "en.embed_sentence.bert_base_uncased"
                    (widgets st !! "Embeddings_Model"))).
Proof.
  intros Hd. unfold cell_widgets.
  rewrite 3!bind_widgets_text, widgets_text_run by exact Hd.
  cbn [fst snd widgets with_widgets globals].
  set (w := ensure_widget "Source_Documents" _ _).
  assert (H1 : w !! "PDF_Path" = Some (default "/dbfs/tmp/langchain_hls/pdfs"
                                         (widgets st !! "PDF_Path")))
    by (unfold w; rewrite !lookup_ensure_widget; by repeat (case_decide; try done)).
  assert (H2 : w !! "Source_Documents"
               = Some (default "s3a://db-gtm-industry-solutions/data/hls/llm_qa/"
                         (widgets st !! "Source_Documents")))
    by (unfold w; rewrite !lookup_ensure_widget; by repeat (case_decide; try done)).
  assert (H3 : w !! "Vectorstore_Persist_Path"
               = Some (default "/dbfs/tmp/langchain_hls/db"
                         (widgets st !! "Vectorstore_Persist_Path")))
    by (unfold w; rewrite !lookup_ensure_widget; by repeat (case_decide; try done)).
  assert (H4 : w !! "Embeddings_Model"
               = Some (default "en.embed_sentence.bert_base_uncased"
                         (widgets st !! "Embeddings_Model")))
    by (unfold w; rewrite !lookup_ensure_widget; by repeat (case_decide; try done)).
  assert (Hkeep : ∀ name v, widgets st !! name = Some v → w !! name = Some v).
  { intros name v Hv. unfold w. rewrite !lookup_ensure_widget.
    repeat (case_decide; [subst; by rewrite Hv|]). done. }
  clearbody w. unfold cell_get_widgets.
  repeat first
    [ rewrite bind_assoc
    | rewrite bind_set_global
    | erewrite bind_widgets_get;
        [| cbn [globals with_globals with_widgets];
           repeat (rewrite lookup_insert_ne by done); exact Hd
         | cbn [widgets with_widgets with_globals]; eassumption] ].
  unfold set_global. cbn [fst snd globals widgets with_globals with_widgets].
  split_and!; [done | done | exact Hkeep | ..];
    repeat (rewrite lookup_insert_eq || rewrite lookup_insert_ne by done); done.
Qed.

(** *** Querying and reopening *)

Lemma bind_load_with {B} f (k : list Document → M B) st ds h :
  f (files st) (objects st) = Done (ds, h) →
  bind (load_with f) k st = k ds (with_objects h st).
Proof. intros Hf. unfold bind, load_with. by rewrite Hf. Qed.

(** X14: the query cell indexes the first hit.  With a store in [db], it
    binds [similar_docs] to whatever the search returns, and then raises
    [IndexError] exactly when the search returned no document. *)
Theorem cell_query_first_hit
    (st : notebook) (db : VectorStore) (hits : list Document) (h : heap) :
  globals st !! "db" = Some (VChroma db) →
  similarity_search db "What is cystic fibrosis?" (objects st) = Done (hits, h) →
  (cell_query st).1 = match hits with [] => Raise IndexError | _ => Ok tt end ∧
  globals (cell_query st).2 !! "similar_docs" = Some (VDocs hits) ∧
  objects (cell_query st).2 = h.
Proof.
  intros Hdb Hs. unfold cell_query. repeat nb_step. cbv beta iota.
  repeat nb_step. erewrite bind_load_with by exact Hs. repeat nb_step.
  unfold get_docs. repeat nb_step. cbv beta iota.
  destruct hits; (split_and!; [done | simpl; by rewrite lookup_insert_eq | done]).
Qed.

(** X15: the cell headed "Start here to load a previously-saved DB"
    cannot start a session: its line [db_persist_path = db_persist_path]
    reads a global that only the widget cell binds.  With the packages
    installed and [db_persist_path] unbound it raises [NameError] and
    leaves [db] as it was. *)
Theorem cell_reopen_needs_db_persist_path (st : notebook) :
  installed "langchain" = true →
  installed "johnsnowlabs" = true →
  unbound "db_persist_path" st →
  (cell_reopen st).1 = Raise (NameError "db_persist_path") ∧
  globals (cell_reopen st).2 !! "db" = globals st !! "db".
Proof.
  intros H1 H2 Hu. unfold unbound in Hu. unfold cell_reopen, import.
  rewrite H1, H2. repeat nb_step. split; [done|].
  simpl. by rewrite !lookup_insert_ne.
Qed.

(** Apart from the two cells that build or reopen the store, no cell
    assigns [db]. *)
Lemma exec_keeps_db_unbound (c : cell) :
  c ≠ CBuildVectorstore → c ≠ CReopen → keeps_unbound "db" (exec c).
Proof.
  intros Hb Hr. destruct c; try done; simpl;
    unfold cell_install, cell_widgets, cell_get_widgets, cell_import_os,
      cell_stage_pdfs, clear_pdf_dir, copy_pdfs, cell_load_pdfs,
      cell_define_splitter, cell_split, make_splitter, split_docs,
      cell_display_documents, cell_query, cell_display_similar,
      widgets_text, widgets_get, import, import_std, get_str, get_docs, get_def;
    keeps.
Qed.

(** *** Defining the splitter, then splitting *)

Lemma bind_get_def {B} name (k : unit → M B) st :
  globals st !! name = Some (VDef name) → bind (get_def name) k st = k tt st.
Proof.
  intros Hv. unfold get_def. rewrite bind_assoc.
  rewrite (bind_get_global _ _ _ _ Hv). by rewrite bool_decide_true.
Qed.

Lemma bind_get_docs {B} name (k : list Document → M B) st ds :
  globals st !! name = Some (VDocs ds) → bind (get_docs name) k st = k ds st.
Proof.
  intros Hv. unfold get_docs. rewrite bind_assoc.
  by rewrite (bind_get_global _ _ _ _ Hv).
Qed.

(** X18: once the cell of lines 145-189 has completed and [docs] holds a
    list of documents, the cell of lines 194-195 meets no unbound name
    and no value of the wrong kind: its outcome is that of the
    constructor with chunk size 1000 and overlap 0, followed by that of
    [split_documents] on [docs] (the import inside [split_hay_doc]
    included); and when it completes, [texts] holds the chunks. *)
Theorem define_then_split (st : notebook) (ds : list Document) :
  (cell_define_splitter st).1 = Ok tt →
  globals st !! "docs" = Some (VDocs ds) →
  (cell_split (cell_define_splitter st).2).1 =
    rbind (JslCharSplitter_init 0 1000 default_explode_splits
             default_keep_seperators default_patterns_are_regex
             default_split_patterns default_trim_whitespace)
      (λ s, rbind (split_documents s ds) (λ _, Ok tt)) ∧
  ∀ s texts,
    JslCharSplitter_init 0 1000 default_explode_splits
      default_keep_seperators default_patterns_are_regex
      default_split_patterns default_trim_whitespace = Ok s →
    split_documents s ds = Ok texts →
    globals (cell_split (cell_define_splitter st).2).2 !! "texts"
      = Some (VDocs texts).
Proof.
  unfold cell_define_splitter, import.
  destruct (installed "johnsnowlabs"); [|by rewrite bind_raise].
  repeat nb_step. intros _ Hdocs. unfold set_global at 1 2. cbn [fst snd].
  assert (Hdoc : ∀ B (k : unit → M B) st',
    globals st' !! "split_hay_doc" = Some (VDef "split_hay_doc") →
    bind (match ds with [] => ret tt | _ => get_def "split_hay_doc" end) k st'
    = k tt st').
  { intros B k st' Hst'. destruct ds; [done | by rewrite bind_get_def]. }
  unfold cell_split, make_splitter, split_docs.
  repeat first [ nb_step | rewrite bind_get_def by lookup_now ].
  destruct (JslCharSplitter_init _ _ _ _ _ _ _) as [s|e];
    [rewrite bind_lift_Ok | rewrite bind_lift_Raise; by split].
  repeat first [ nb_step | rewrite bind_get_def by lookup_now
               | erewrite bind_get_docs by lookup_now
               | rewrite Hdoc by lookup_now
               | progress cbv beta iota ].
  cbn [rbind].
  destruct (split_documents s ds) as [texts|e] eqn:Hsplit;
    [rewrite bind_lift_Ok | rewrite bind_lift_Raise].
  - split; [done|]. intros s' texts' [= <-]. rewrite Hsplit. intros [= <-].
    simpl. by rewrite lookup_insert_eq.
  - split; [done|]. intros s' texts' [= <-]. by rewrite Hsplit.
Qed.

End NotebookProperties.



Section Ingestion.
Context `{SparkNLP} `{Platform}.

Lemma from_documents_unbound st :
  is_Some (globals st !! "Chroma") → unbound "documents" st →
  from_documents st = (Raise (NameError "documents"), st).
Proof.
  intros [v Hv] Hd. unfold from_documents.
  rewrite (bind_get_global _ _ _ _ Hv). unfold get_docs.
  rewrite bind_assoc. by rewrite bind_get_global_None.
Qed.

Lemma build_vectorstore_unbound st :
  unbound "documents" st →
  ∃ e st2, cell_build_vectorstore st = (Raise e, st2) ∧
           files st2 = files st ∧
           globals st2 !! "db" = globals st !! "db".
Proof.
  intros Hd. unfold cell_build_vectorstore.
  destruct (before_from_documents_effect st) as (g & Hst & Hdoc & Hdb & HC).
  unfold bind at 1.
  destruct (before_from_documents st) as [[[]|e] st1] eqn:Hb; simpl in *; subst st1.
  - unfold bind. rewrite from_documents_unbound.
    + eauto.
    + by apply HC.
    + unfold unbound. simpl. by rewrite Hdoc.
  - eauto.
Qed.

(** C2: the chunks are bound to [texts] and the store is built from
    [documents], a name no cell assigns.  In every session that starts
    without a global [documents], whatever cells are run and in whatever
    order: [documents] is still unbound; line 195, when it completes, has
    put the chunker's output in [texts]; line 209, when it is reached,
    raises [NameError] for [documents] and changes nothing; and the cell
    of lines 203-210 ends with an exception, leaving the files and the
    global [db] as they were. *)
Theorem chunks_never_reach_the_vector_store (cells : list cell) (st0 : notebook) :
  unbound "documents" st0 →
  unbound "documents" (run cells st0) ∧
  ((split_docs (run cells st0)).1 = Ok tt →
     ∃ s docs texts,
       globals (run cells st0) !! "jsl_splitter" = Some (VSplitter s) ∧
       globals (run cells st0) !! "docs" = Some (VDocs docs) ∧
       split_documents s docs = Ok texts ∧
       globals (split_docs (run cells st0)).2 !! "texts" = Some (VDocs texts) ∧
       unbound "documents" (split_docs (run cells st0)).2) ∧
  ((before_from_documents (run cells st0)).1 = Ok tt →
     from_documents (before_from_documents (run cells st0)).2 =
     (Raise (NameError "documents"), (before_from_documents (run cells st0)).2)) ∧
  (∃ e st2, cell_build_vectorstore (run cells st0) = (Raise e, st2) ∧
            files st2 = files (run cells st0) ∧
            globals st2 !! "db" = globals (run cells st0) !! "db").
Proof.
  intros Hst0.
  pose proof (run_keeps_documents_unbound cells st0 Hst0) as Hst.
  set (st := run cells st0) in *. split_and!.
  - done.
  - destruct (split_docs st) as [r st1] eqn:Hsp. simpl. intros ->.
    apply split_docs_Ok_inv in Hsp as (s & docs & texts & Hs & Hd & Ht & ->).
    exists s, docs, texts. split_and!; [done..| |].
    + simpl. apply lookup_insert_eq.
    + unfold unbound. simpl. by rewrite lookup_insert_ne.
  - intros Hb.
    destruct (before_from_documents_effect st) as (g & Hg & Hdoc & _ & HC).
    rewrite Hg. apply from_documents_unbound; [by apply HC|].
    unfold unbound. simpl. by rewrite Hdoc.
  - by apply build_vectorstore_unbound.
Qed.

(** X16: the cell of line 199, [display(documents)], never completes.
    In every session that starts without a global [documents], it raises
    [NameError] and changes nothing, and with [display] at hand the name
    it misses is [documents]. *)
Theorem display_documents_raises (cells : list cell) (st0 : notebook) :
  unbound "documents" st0 →
  ∃ name,
    exec CDisplayDocuments (run cells st0)
      = (Raise (NameError name), run cells st0) ∧
    (is_Some (globals (run cells st0) !! "display") → name = "documents").
Proof.
  intros Hst0.
  pose proof (run_keeps_documents_unbound cells st0 Hst0) as Hst.
  set (st := run cells st0) in *. simpl. unfold cell_display_documents.
  destruct (globals st !! "display") as [v|] eqn:Hd.
  - exists "documents". split; [|done].
    rewrite (bind_get_global _ _ _ _ Hd). by rewrite bind_get_global_None.
  - exists "display". split; [by rewrite bind_get_global_None | by intros [? ?]].
Qed.

(** X17: the store is never built, so it can only be reopened.  In a
    session that starts with neither [documents] nor [db] bound and in
    which the reopening cell is not run, [db] stays unbound whatever other
    cells are run, in whatever order, and the query cell raises
    [NameError] for [db]. *)
Theorem query_needs_reopen (cells : list cell) (st0 : notebook) :
  unbound "documents" st0 →
  unbound "db" st0 →
  CReopen ∉ cells →
  unbound "db" (run cells st0) ∧
  (exec CQuery (run cells st0)).1 = Raise (NameError "db").
Proof.
  intros Hdoc Hdb Hcells.
  assert (Hrun : unbound "documents" (run cells st0) ∧ unbound "db" (run cells st0)).
  { revert st0 Hdoc Hdb. induction cells as [|c cells IH]; simpl;
      intros st Hdoc Hdb; [done|].
    apply not_elem_of_cons in Hcells as [Hc Hcells].
    apply IH; [done | by apply exec_keeps_documents_unbound |].
    assert (c = CBuildVectorstore ∨ c ≠ CBuildVectorstore) as [->|Hb]
      by (destruct c; (by left) || (by right)).
    - destruct (build_vectorstore_unbound st Hdoc) as (e & st2 & Hst2 & _ & Hsame).
      simpl. rewrite Hst2. unfold unbound in *. simpl. by rewrite Hsame.
    - apply exec_keeps_db_unbound; [done | congruence | done]. }
  destruct Hrun as [_ Hu]. split; [done|]. simpl. unfold cell_query.
  rewrite bind_set_global.
  rewrite bind_assoc, bind_get_global_None; [done|].
  simpl. by rewrite lookup_insert_ne.
Qed.

End Ingestion.

(** ** Sessions on the stand-in platform *)

Section StandIn.
#[local] Existing Instance Double.nlp.
#[local] Existing Instance Double.platform.

Import Double.




(** C8, as stated, fails: the two chunks of [page] hold the location of
    [page]'s own metadata dictionary, so setting a key through the first
    chunk changes what the parent document reads. *)
Lemma chunk_metadata_not_a_copy :
  split_documents by_twenty [page] =
    Ok [mkDocument "Cystic fibrosis is a" 1%positive; mkDocument " genetic disorder." 1%positive] ∧
  dict_get (metadata page) "page" page_store = Some "0" ∧
  dict_get (metadata page) "page"
    (dict_setitem (metadata (mkDocument "Cystic fibrosis is a" 1%positive)) "page" "9"
       page_store) = Some "9".
Proof. split_and!; vm_compute; reflexivity. Qed.

Lemma chunks_share_parent_metadata_witness :
  ∃ groups,
    [mkDocument "Cystic fibrosis is a" 1%positive; mkDocument " genetic disorder." 1%positive]
      = concat groups ∧
    Forall2 (λ doc group,
      split_hay_doc (pipe by_twenty) doc = Ok group ∧
      ∀ c, c ∈ group →
        metadata c = metadata doc ∧
        ∀ (h : heap) k v, is_Some (h !! metadata doc) →
          dict_get (metadata doc) k (dict_setitem (metadata c) k v h) = Some v)
      [page] groups.
Proof.
  apply (chunks_share_parent_metadata by_twenty [page]). reflexivity.
Defined.

(** C9, at the failing input: the source bucket holds no PDF, so [docs]
    is the empty list.  The chunker returns the empty list and [texts] is
    bound to it; the cell that builds the store then raises [NameError]
    for [documents] instead of completing with nothing to store. *)
Theorem ingesting_no_documents_raises :
  globals (run (take 9 run_all) (new_session old_files)) !! "docs"
    = Some (VDocs []) ∧
  globals (run (take 9 run_all) (new_session old_files)) !! "texts"
    = Some (VDocs []) ∧
  outcomes (take 9 run_all) (new_session old_files) = replicate 9 (Ok tt) ∧
  (exec CBuildVectorstore (run (take 9 run_all) (new_session old_files))).1
    = Raise (NameError "documents").
Proof. split_and!; vm_compute; reflexivity. Qed.

Lemma chunks_never_reach_the_vector_store_witness :
  unbound "documents" (new_session with_pdf) ∧
  from_documents
    (before_from_documents (run (take 10 run_all) (new_session with_pdf))).2 =
  (Raise (NameError "documents"),
   (before_from_documents (run (take 10 run_all) (new_session with_pdf))).2).
Proof.
  assert (Hu : unbound "documents" (new_session with_pdf)) by reflexivity.
  split; [exact Hu|].
  destruct (chunks_never_reach_the_vector_store (take 10 run_all) _ Hu)
    as (_ & _ & Hraise & _).
  apply Hraise. vm_compute. reflexivity.
Defined.

Lemma split_documents_contents_witness :
  page_content <$> [mkDocument "Cystic fibrosis is a" 1%positive;
                    mkDocument " genetic disorder." 1%positive]
    = concat [["Cystic fibrosis is a"; " genetic disorder."]] ∧
  length [mkDocument "Cystic fibrosis is a" 1%positive;
          mkDocument " genetic disorder." 1%positive]
    = sum_list (length <$> [["Cystic fibrosis is a"; " genetic disorder."]]).
Proof.
  apply (split_documents_contents by_twenty [page]).
  - repeat constructor.
  - reflexivity.
Defined.

Lemma split_documents_first_failure_witness :
  @split_documents picky_nlp platform by_twenty [page; blank; page]
    = Raise (ExternalError "empty text").
Proof.
  apply (@split_documents_first_failure picky_nlp platform by_twenty
           [page] [page] blank).
  - reflexivity.
  - repeat constructor. by eexists.
  - reflexivity.
Defined.

Lemma split_documents_Raise_witness :
  [page; blank; page] ≠ [] ∧
  ((@installed platform "langchain" = false ∧
    ExternalError "empty text" = ImportError "langchain") ∨
   (@installed platform "langchain" = true ∧
    ∃ doc origin, doc ∈ [page; blank; page] ∧
      @annotate picky_nlp (pipe by_twenty) (page_content doc) = Failed origin ∧
      ExternalError "empty text" = ExternalError origin)).
Proof.
  apply (@split_documents_Raise picky_nlp platform by_twenty [page; blank; page]).
  reflexivity.
Defined.

Lemma cell_split_frame_witness :
  globals (cell_split (run (take 8 run_all) (new_session with_pdf))).2 !! "docs"
  = globals (run (take 8 run_all) (new_session with_pdf)) !! "docs".
Proof.
  apply (cell_split_frame (run (take 8 run_all) (new_session with_pdf)) "docs");
    discriminate.
Defined.

Lemma modified_pdf_path_strips_characters_witness :
  globals (copy_pdfs data_session).2 !! "modified_pdf_path"
    = Some (VStr ("dbfs:/" +:+ lstrip dbfs_chars "data/pdfs")) ∧
  lstrip dbfs_chars "data/pdfs" = "ata/pdfs" ∧
  parse_path (lstrip dbfs_chars "data/pdfs") ≠ parse_path "data/pdfs".
Proof.
  destruct (modified_pdf_path_strips_characters data_session "data/pdfs")
    as [Hbound Hsame].
  - vm_compute. reflexivity.
  - split_and!; [exact Hbound | reflexivity |].
    intros Heq. apply Hsame in Heq. apply Heq. vm_compute. by repeat constructor.
Defined.

Lemma file_in_the_way_tree_shaped : tree_shaped (files file_in_the_way).
Proof. apply (bool_decide_unpack _). vm_compute. reflexivity. Qed.

Lemma clear_pdf_dir_regular_file_witness :
  (clear_pdf_dir file_in_the_way).1 = Raise (FileExistsError pdf_dir) ∧
  files (clear_pdf_dir file_in_the_way).2 = files file_in_the_way.
Proof.
  apply (clear_pdf_dir_regular_file file_in_the_way
           "/dbfs/tmp/langchain_hls/pdfs" "not a directory").
  - vm_compute. reflexivity.
  - vm_compute. discriminate.
  - exact file_in_the_way_tree_shaped.
  - vm_compute. reflexivity.
Defined.


Lemma clear_pdf_dir_unbound_witness :
  (clear_pdf_dir (new_session old_files)).1 = Raise (NameError "pdf_path") ∧
  files (clear_pdf_dir (new_session old_files)).2 = files (new_session old_files).
Proof.
  destruct (clear_pdf_dir_unbound (new_session old_files)) as (H1 & H2 & _).
  - reflexivity.
  - by split.
Defined.


Lemma widgets_then_get_witness :
  globals (cell_get_widgets (cell_widgets data_session).2).2 !! "pdf_path"
    = Some (VStr "/dbfs/data/pdfs") ∧
  globals (cell_get_widgets (cell_widgets data_session).2).2 !! "db_persist_path"
    = Some (VStr "/dbfs/tmp/langchain_hls/db").
Proof.
  destruct (widgets_then_get data_session) as (_ & _ & _ & Hp & _ & Hd & _).
  - vm_compute. eexists. reflexivity.
  - split; [rewrite Hp | rewrite Hd]; vm_compute; reflexivity.
Defined.

Lemma cell_query_first_hit_witness :
  (cell_query empty_store).1 = Raise IndexError ∧
  globals (cell_query empty_store).2 !! "similar_docs" = Some (VDocs []).
Proof.
  destruct (cell_query_first_hit empty_store ([], "/dbfs/tmp/langchain_hls/db") [] ∅)
    as (H1 & H2 & _).
  - vm_compute. reflexivity.
  - reflexivity.
  - by split.
Defined.

Lemma cell_reopen_needs_db_persist_path_witness :
  (cell_reopen (new_session old_files)).1 = Raise (NameError "db_persist_path").
Proof.
  apply (cell_reopen_needs_db_persist_path (new_session old_files));
    reflexivity.
Defined.

Lemma display_documents_raises_witness :
  ∃ name,
    exec CDisplayDocuments (run (take 9 run_all) (new_session with_pdf))
      = (Raise (NameError name), run (take 9 run_all) (new_session with_pdf)).
Proof.
  destruct (display_documents_raises (take 9 run_all) (new_session with_pdf))
    as (name & Hn & _).
  - reflexivity.
  - by exists name.
Defined.

Lemma query_needs_reopen_witness :
  (exec CQuery (run (take 11 run_all) (new_session with_pdf))).1
    = Raise (NameError "db").
Proof.
  apply (query_needs_reopen (take 11 run_all) (new_session with_pdf)).
  - reflexivity.
  - reflexivity.
  - simpl. rewrite !not_elem_of_cons. split_and!; [done..|apply not_elem_of_nil].
Defined.

Lemma define_then_split_witness :
  globals (cell_split (cell_define_splitter
                         (run (take 7 run_all) (new_session with_pdf))).2).2
    !! "texts"
  = Some (VDocs [mkDocument "Cystic fibrosis is a genetic disorder." 1%positive]).
Proof.
  destruct (define_then_split (run (take 7 run_all) (new_session with_pdf))
              [mkDocument "Cystic fibrosis is a genetic disorder." 1%positive])
    as [_ Ht].
  - vm_compute. reflexivity.
  - vm_compute. reflexivity.
  - apply (Ht (mkJslCharSplitter (mkParams 1000 0 default_split_patterns true)));
      reflexivity.
Defined.

End StandIn.
